(** * Sales analysis endpoint ([app.py]): a shallow embedding and its properties

    The repository is one Flask handler, [analyze_file], that receives an
    uploaded spreadsheet, validates it, filters its rows by month and returns
    chart data.  This file embeds that handler as Rocq functions and proves
    the properties its specification states about it.

    Modelling conventions.
    - The handler runs in a small writer monad with early exit ([M]): every
      [logger] call appends a [LogEvent], every [return jsonify(...), code]
      leaves the handler, and an exception reaching the outer
      [except Exception] becomes the 500 response built there.
    - [pd.read_excel] is outside the repository: an upload carries what the
      call yields, a parsed [DataFrame] or the raised exception.  String-to-date
      conversion inside [pd.to_datetime] is a parameter ([to_datetime_convert]).
    - A [DataFrame] column is one of three shapes: [Int64Col] (dtype int64:
      whole-valued cells, none blank), [DatetimeCol] (dtype datetime64, at
      midnight) and [ObjectCol] (dtype object holding text).  float64 and bool
      columns (fractional or blank numeric cells) are not represented.
    - int64 sums wrap around modulo 2^64 ([wrap64]), as numpy's do.
    - float64 expressions ([Sales / total * 100], [total / count]) are carried
      in exact arithmetic and rounded half-to-even at the decimal place the
      code asks for; signed zero, infinities and the exponent notation of very
      large floats are not represented. *)

From Stdlib Require Import ZArith QArith List String Ascii Bool Lia Lqa.
From Stdlib Require Import Permutation Sorted DecimalString SpecFloat.
Import ListNotations.

Local Open Scope string_scope.
Local Open Scope Z_scope.

Set Implicit Arguments.

(* ================================================================= *)
(** ** Python string helpers *)

Module PyStr.

(** [str.isspace] on ASCII: TAB, LF, VT, FF, CR, FS, GS, RS, US and space. *)
Definition is_space (c : ascii) : bool :=
  let n := N_of_ascii c in
  ((9 <=? n) && (n <=? 13) || (28 <=? n) && (n <=? 32))%N.

Fixpoint lstrip (s : string) : string :=
  match s with
  | EmptyString => EmptyString
  | String c s' => if is_space c then lstrip s' else s
  end.

Fixpoint rstrip (s : string) : string :=
  match s with
  | EmptyString => EmptyString
  | String c s' =>
      match rstrip s' with
      | EmptyString => if is_space c then EmptyString else String c EmptyString
      | r => String c r
      end
  end.

(** [s.strip()] *)
Definition strip (s : string) : string := rstrip (lstrip s).

(** [s.split(sep)] for a one-character separator: never returns []. *)
Fixpoint split (sep : ascii) (s : string) : list string :=
  match s with
  | EmptyString => [EmptyString]
  | String c s' =>
      if Ascii.eqb c sep then EmptyString :: split sep s'
      else match split sep s' with
           | [] => [String c EmptyString]
           | h :: t => String c h :: t
           end
  end.

(** [sep.join(l)] *)
Definition join (sep : string) (l : list string) : string := String.concat sep l.

(** [s.endswith(suffix)] *)
Definition endswith (s suffix : string) : bool :=
  let n := String.length s in
  let m := String.length suffix in
  (m <=? n)%nat && String.eqb (substring (n - m) m s) suffix.

(** [s.endswith((a, b))] with a tuple of suffixes *)
Definition endswith_any (s : string) (suffixes : list string) : bool :=
  existsb (endswith s) suffixes.

(** [sub in s] *)
Fixpoint contains (sub s : string) : bool :=
  String.prefix sub s ||
  match s with
  | EmptyString => false
  | String _ s' => contains sub s'
  end.

(** Decimal digits of a natural number, as [str(n)] prints them. *)
Definition digits (n : Z) : string := NilZero.string_of_uint (N.to_uint (Z.to_N n)).

(** [str(z)] for a Python int *)
Definition of_int (z : Z) : string :=
  if z <? 0 then "-" ++ digits (- z) else digits z.

(** The [,] option of the format mini-language: a comma between groups of
    three digits, counted from the right. *)
Fixpoint group3_rev (r : list ascii) : list ascii :=
  match r with
  | a :: b :: c :: ((_ :: _) as rest) => a :: b :: c :: ","%char :: group3_rev rest
  | _ => r
  end.

Definition grouped (n : Z) : string :=
  string_of_list_ascii (rev (group3_rev (rev (list_ascii_of_string (digits n))))).

(** Left-pads the digits of [n] with zeros to [width] characters. *)
Definition zero_pad (width : nat) (n : Z) : string :=
  let d := digits n in
  string_of_list_ascii (repeat "0"%char (width - String.length d)) ++ d.

End PyStr.

(* ================================================================= *)
(** ** Numbers *)

(** Two's-complement reduction to the int64 range. *)
Definition wrap64 (z : Z) : Z := (z + 2 ^ 63) mod 2 ^ 64 - 2 ^ 63.

(** [Series.sum()] and the group-wise [sum] on an int64 column: the running
    total is an int64 and wraps. *)
Definition sum_int64 (l : list Z) : Z :=
  fold_left (fun acc x => wrap64 (acc + x)) l 0.

(** The exact quotient [n / d] ([0 < d]) rounded to the nearest integer, ties
    to the even one: what [round] and the [f] format do at their last digit. *)
Definition round_half_even (n d : Z) : Z :=
  let q := n / d in
  let r := n mod d in
  if 2 * r <? d then q
  else if d <? 2 * r then q + 1
  else if Z.even q then q else q + 1.

(** A number as it appears in the JSON body: a Python int, or a float that
    [round(_, 1)] produced, kept as its count of tenths. *)
Inductive Number :=
| PyInt (z : Z)
| Float1 (tenths : Z).

Definition Number_to_Q (x : Number) : Q :=
  match x with
  | PyInt z => inject_Z z
  | Float1 t => t # 10
  end.

(** [str(x)], as an f-string interpolates it: [0], [66.7], [100.0], [-12.5]. *)
Definition Number_str (x : Number) : string :=
  match x with
  | PyInt z => PyStr.of_int z
  | Float1 t =>
      (if t <? 0 then "-" else EmptyString) ++
      PyStr.digits (Z.abs t / 10) ++ "." ++ PyStr.digits (Z.abs t mod 10)
  end.

(** [round(sales / total_sales * 100, 1)] for [0 < total_sales]. *)
Definition percent_of (sales total_sales : Z) : Number :=
  Float1 (round_half_even (sales * 1000) total_sales).

(** [f"{x:,.2f}"] for the quotient [n / d] ([0 < d]): sign, grouped integer
    part, two decimals. *)
Definition format_2f (n d : Z) : string :=
  let h := round_half_even (Z.abs n * 100) d in
  (if n <? 0 then "-" else EmptyString) ++
  PyStr.grouped (h / 100) ++ "." ++ PyStr.zero_pad 2 (h mod 100).

(** [f"{x:,.0f}"] for an integer [x]. *)
Definition format_0f (x : Z) : string :=
  (if x <? 0 then "-" else EmptyString) ++ PyStr.grouped (Z.abs x).

(* ================================================================= *)
(** ** Dates *)

Inductive Month :=
| Jan | Feb | Mar | Apr | May | Jun | Jul | Aug | Sep | Oct | Nov | Dec.

Record Timestamp := { year : Z; month_of : Month; day : Z }.

(** [strftime('%b')]: the month's three-letter English abbreviation. *)
Definition month_abbr (m : Month) : string :=
  match m with
  | Jan => "Jan" | Feb => "Feb" | Mar => "Mar" | Apr => "Apr"
  | May => "May" | Jun => "Jun" | Jul => "Jul" | Aug => "Aug"
  | Sep => "Sep" | Oct => "Oct" | Nov => "Nov" | Dec => "Dec"
  end.

Definition strftime_b (d : Timestamp) : string := month_abbr (month_of d).

Definition month_number (m : Month) : Z :=
  match m with
  | Jan => 1 | Feb => 2 | Mar => 3 | Apr => 4 | May => 5 | Jun => 6
  | Jul => 7 | Aug => 8 | Sep => 9 | Oct => 10 | Nov => 11 | Dec => 12
  end.

Definition Timestamp_key (d : Timestamp) : Z * Z * Z :=
  (year d, month_number (month_of d), day d).

Definition Timestamp_eqb (a b : Timestamp) : bool :=
  (year a =? year b) && (month_number (month_of a) =? month_number (month_of b))
  && (day a =? day b).

(** Chronological order. *)
Definition Timestamp_leb (a b : Timestamp) : bool :=
  (year a <? year b) ||
  (year a =? year b) &&
    ((month_number (month_of a) <? month_number (month_of b)) ||
     (month_number (month_of a) =? month_number (month_of b)) && (day a <=? day b)).

(** [str(ts)]: [2024-01-05 00:00:00]. *)
Definition Timestamp_str (d : Timestamp) : string :=
  PyStr.zero_pad 4 (year d) ++ "-" ++ PyStr.zero_pad 2 (month_number (month_of d))
  ++ "-" ++ PyStr.zero_pad 2 (day d) ++ " 00:00:00".

(* ================================================================= *)
(** ** Data frames *)

(** A cell of a column, by the kind of value it holds. *)
Inductive Cell :=
| IntCell (z : Z)
| DateCell (d : Timestamp)
| TextCell (s : string).

Definition is_numeric_cell (c : Cell) : bool :=
  match c with IntCell _ => true | _ => false end.

(** A column with its dtype. *)
Inductive Column :=
| Int64Col (values : list Z)
| DatetimeCol (values : list Timestamp)
| ObjectCol (values : list string).

Definition cells (c : Column) : list Cell :=
  match c with
  | Int64Col l => map IntCell l
  | DatetimeCol l => map DateCell l
  | ObjectCol l => map TextCell l
  end.

(** [pd.api.types.is_numeric_dtype] *)
Definition is_numeric_dtype (c : Column) : bool :=
  match c with Int64Col _ => true | _ => false end.

(** The column's values as int64 (read only after [is_numeric_dtype]). *)
Definition int64_values (c : Column) : list Z :=
  match c with Int64Col l => l | _ => [] end.

(** A group-by key or label: whatever the [Product] column holds. *)
Inductive Label :=
| LInt (z : Z)
| LDate (d : Timestamp)
| LText (s : string).

Definition labels (c : Column) : list Label :=
  match c with
  | Int64Col l => map LInt l
  | DatetimeCol l => map LDate l
  | ObjectCol l => map LText l
  end.

Definition Label_eqb (a b : Label) : bool :=
  match a, b with
  | LInt x, LInt y => x =? y
  | LDate x, LDate y => Timestamp_eqb x y
  | LText x, LText y => String.eqb x y
  | _, _ => false
  end.

(** The order group keys are sorted in.  Keys of one column are of one kind;
    across kinds (which never meet) ints come first, text last. *)
Definition Label_leb (a b : Label) : bool :=
  match a, b with
  | LInt x, LInt y => x <=? y
  | LInt _, _ => true
  | LDate _, LInt _ => false
  | LDate x, LDate y => Timestamp_leb x y
  | LDate _, LText _ => true
  | LText x, LText y => String.leb x y
  | LText _, _ => false
  end.

(** [str(label)] inside an f-string. *)
Definition Label_str (a : Label) : string :=
  match a with
  | LInt z => PyStr.of_int z
  | LDate d => Timestamp_str d
  | LText s => s
  end.

(** A parsed sheet: its columns in order, each under its header. *)
Definition DataFrame := list (string * Column).

(** [df.columns] *)
Definition columns (df : DataFrame) : list string := map fst df.

(** [col in df.columns] *)
Definition has_column (df : DataFrame) (col : string) : bool :=
  existsb (String.eqb col) (columns df).

(** [df[col]] *)
Fixpoint get_column (df : DataFrame) (col : string) : option Column :=
  match df with
  | [] => None
  | (name, c) :: rest => if String.eqb name col then Some c else get_column rest col
  end.

(** One record of the validated table. *)
Record Row := { Date : Timestamp; Sales : Z; Revenue : Z; Product : Label }.

Definition Table := list Row.

(** The four required columns, read row by row. *)
Fixpoint records (dates : list Timestamp) (sales revenue : list Z)
                 (products : list Label) : Table :=
  match dates, sales, revenue, products with
  | d :: ds, s :: ss, r :: rs, p :: ps =>
      {| Date := d; Sales := s; Revenue := r; Product := p |} :: records ds ss rs ps
  | _, _, _, _ => []
  end.

(* ================================================================= *)
(** ** The pandas operations the handler uses *)

Section GroupBy.

Variable K : Type.
Variable eqb : K -> K -> bool.
Variable leb : K -> K -> bool.

(** First occurrences, in order of appearance. *)
Fixpoint unique (l : list K) : list K :=
  match l with
  | [] => []
  | k :: rest => k :: filter (fun k' => negb (eqb k' k)) (unique rest)
  end.

Fixpoint insert_sorted (k : K) (l : list K) : list K :=
  match l with
  | [] => [k]
  | k' :: rest => if leb k k' then k :: l else k' :: insert_sorted k rest
  end.

Definition sort_keys (l : list K) : list K := fold_right insert_sorted [] l.

(** The group keys of [groupby(key)] (default [sort=True]): the distinct
    key values in ascending order. *)
Definition group_keys (keys : list K) : list K := sort_keys (unique keys).

(** [recent_data.groupby(key)[val].sum()]: one entry per group key, ascending,
    with the int64 sum of the group's values. *)
Definition groupby_sum (key : Row -> K) (val : Row -> Z) (t : Table) : list (K * Z) :=
  map (fun k => (k, sum_int64 (map val (filter (fun r => eqb (key r) k) t))))
      (group_keys (map key t)).

(** [.idxmax()]: the label of the first entry holding the maximum; [None]
    stands for the [ValueError] pandas raises on an empty series. *)
Definition idxmax (s : list (K * Z)) : option K :=
  match s with
  | [] => None
  | first :: rest =>
      Some (fst (fold_left (fun best e => if snd best <? snd e then e else best)
                           rest first))
  end.

End GroupBy.

(** [.reset_index()]: rows numbered from 0 in their current order. *)
Definition reset_index (A : Type) (l : list A) : list (nat * A) :=
  combine (seq 0 (List.length l)) l.

(** [.sort_values(col, ascending=False)]: descending in column [col].
    Rows with equal values keep their relative order (pandas leaves the order
    of ties to the sorting routine). *)
Section SortValues.

Variable A : Type.
Variable col : A -> Z.

Fixpoint insert_desc (e : A) (l : list A) : list A :=
  match l with
  | [] => [e]
  | e' :: rest => if col e' <=? col e then e :: l else e' :: insert_desc e rest
  end.

Definition sort_values_desc (l : list A) : list A := fold_right insert_desc [] l.

End SortValues.

(** [.head(n)] *)
Definition head (A : Type) (n : nat) (l : list A) : list A := firstn n l.

(* ================================================================= *)
(** ** Requests, responses and the handler's monad *)

Module ChartPoint.
Record t := { month : string; sales : Z; color : string }.
End ChartPoint.

Module ChartSlice.
Record t := { name : Label; value : Number; color : string }.
End ChartSlice.

Module SummaryStat.
Record t := { label : string; value : string; trend : string }.
End SummaryStat.

Record Insights := { topPerformers : list string; recommendations : list string }.

Record Body := {
  barChartData : list ChartPoint.t;
  pieChartData : list ChartSlice.t;
  summaryStats : list SummaryStat.t;
  insights : Insights
}.

(** [jsonify(body)] (HTTP 200) or [jsonify({'error': msg}), status]. *)
Inductive Response :=
| Ok200 (body : Body)
| Error (status : Z) (error : string).

(** What [pd.read_excel(file, engine='openpyxl')] yields for an upload. *)
Inductive ExcelRead :=
| Parsed (df : DataFrame)
| ReadError (msg : string).

Record FileStorage := { filename : string; read_excel : ExcelRead }.

(** [request.files.get('file')] and the two form fields. *)
Record Request := {
  file : option FileStorage;
  specificMonths : option string;
  productFilter : option string
}.

(** [request.form.get(key, default)] *)
Definition form_get (field : option string) (default : string) : string :=
  match field with Some v => v | None => default end.

(** One [logger] call, with the values its message interpolates. *)
Inductive LogEvent :=
| ReceivedRequest
| NoFilePart
| NoFileSelected
| InvalidFileFormat (filename : string)
| ReceivedParameters (specific_months product_filter : string)
| ReadingFile (filename : string)
| ExcelColumns (cols : list string)
| MissingColumns (cols : list string)
| NonNumericValues
| InvalidDateFormat (e : string)
| NoDataForMonths (specific_months : string)
| NoDataAfterFiltering
| AnalysisCompleted
| ErrorProcessingFile (e : string).

(** Log written so far, and either the response already returned or the
    value to continue with. *)
Definition M (A : Type) : Type := list LogEvent * (Response + A).

Definition ret (A : Type) (a : A) : M A := ([], inr a).

Definition bind (A B : Type) (m : M A) (f : A -> M B) : M B :=
  match m with
  | (l, inl r) => (l, inl r)
  | (l, inr a) => let '(l', x) := f a in ((l ++ l')%list, x)
  end.

Definition logger (e : LogEvent) : M unit := ([e], inr tt).

(** [return jsonify(...), status] *)
Definition return_ (A : Type) (r : Response) : M A := ([], inl r).

(** An exception that reaches the handler's outer [except Exception]. *)
Definition raise (A : Type) (e : string) : M A :=
  ([ErrorProcessingFile e], inl (Error 500 ("Failed to process file: " ++ e))).

Arguments ret {A} a.
Arguments bind {A B} m f.
Arguments return_ {A} r.
Arguments raise {A} e.

Notation "x <- m ;; k" := (bind m (fun x => k))
  (at level 61, m at next level, right associativity).
Notation "m ;; k" := (bind m (fun _ => k))
  (at level 61, right associativity).

(** The value a stage hands on, if it did not return a response. *)
Definition completes (A : Type) (m : M A) (a : A) : Prop := snd m = inr a.

(** The response a stage returned, if it did. *)
Definition returns (A : Type) (m : M A) (r : Response) : Prop := snd m = inl r.

Definition bad_request (msg : string) : Response := Error 400 msg.

(* ================================================================= *)
(** ** The handler *)

Definition required_columns : list string := ["Date"; "Sales"; "Revenue"; "Product"].

Definition bar_colors : list string :=
  ["#3B82F6"; "#10B981"; "#F59E0B"; "#EF4444"; "#8B5CF6"; "#EC4899";
   "#06B6D4"; "#D97706"; "#6366F1"; "#F472B6"; "#14B8A6"; "#F43F5E"].

Definition colors : list string :=
  ["#3B82F6"; "#10B981"; "#F59E0B"; "#EF4444"; "#8B5CF6"].

(** [palette[i % len(palette)]] *)
Definition cycle (palette : list string) (i : nat) : string :=
  nth (i mod List.length palette) palette EmptyString.

(** [Series.isin(values)] for one element *)
Definition isin (s : string) (values : list string) : bool :=
  existsb (String.eqb s) values.

(** The outcome of [pd.to_datetime] on a column. *)
Inductive ToDatetime :=
| Converted (dates : list Timestamp)
| ValueError (e : string)
| OtherError (e : string).

(** [df[col]]; a missing label raises [KeyError]. *)
Definition getitem (df : DataFrame) (col : string) : M Column :=
  match get_column df col with
  | Some c => ret c
  | None => raise ("'" ++ col ++ "'")
  end.

(** Lines 104-118: monthly bars. *)
Definition bar_chart_data (recent_data : Table) : list ChartPoint.t :=
  map (fun '(i, (m, s)) =>
         {| ChartPoint.month := m; ChartPoint.sales := s;
            ChartPoint.color := cycle bar_colors i |})
      (reset_index
         (groupby_sum String.eqb String.leb (fun r => strftime_b (Date r)) Sales
                      recent_data)).

(** The [Sales] cell of a row of the grouped frame: (index, (Product, Sales)). *)
Definition slice_sales (e : nat * (Label * Z)) : Z := snd (snd e).

(** Lines 121-127: the five best-selling products, each with the index it
    had in the grouped frame. *)
Definition top_products (recent_data : Table) : list (nat * (Label * Z)) :=
  head 5 (sort_values_desc slice_sales
            (reset_index
               (groupby_sum Label_eqb Label_leb Product Sales recent_data))).

(** Lines 128-137: product pie. *)
Definition pie_chart_data (recent_data : Table) : list ChartSlice.t :=
  let total_sales := sum_int64 (map Sales recent_data) in
  map (fun '(i, (product, sales)) =>
         {| ChartSlice.name := product;
            ChartSlice.value :=
              if 0 <? total_sales then percent_of sales total_sales else PyInt 0;
            ChartSlice.color := cycle colors i |})
      (top_products recent_data).

(** Lines 140-159: summary statistics. *)
Definition summary_stats (recent_data : Table) : list SummaryStat.t :=
  let total_revenue := sum_int64 (map Revenue recent_data) in
  let total_sales_sum := sum_int64 (map Sales recent_data) in
  let count := Z.of_nat (List.length recent_data) in
  [ {| SummaryStat.label := "Total Revenue";
       SummaryStat.value := "$" ++ format_2f total_revenue 1;
       SummaryStat.trend := "neutral" |};
    {| SummaryStat.label := "Total Sales";
       SummaryStat.value := format_0f total_sales_sum;
       SummaryStat.trend := "neutral" |};
    {| SummaryStat.label := "Average Sales";
       SummaryStat.value :=
         if 0 <? count then format_2f total_sales_sum count else format_2f 0 1;
       SummaryStat.trend := "neutral" |} ].

(** [series.idxmax()], raising on an empty series. *)
Definition idxmax_or_raise (K : Type) (s : list (K * Z)) : M K :=
  match idxmax s with
  | Some k => ret k
  | None => raise "attempt to get argmax of an empty sequence"
  end.

Definition is_empty (A : Type) (l : list A) : bool :=
  match l with [] => true | _ => false end.

(** Lines 161-176: insights. *)
Definition make_insights (top_month : string) (top_product : Label)
                         (pie : list ChartSlice.t) : Insights :=
  {| topPerformers :=
       [ if negb (String.eqb top_month "N/A")
         then top_month ++ " showed the highest sales volume"
         else "No data available";
         match pie with
         | first :: _ =>
             Label_str top_product ++ " dominates with "
             ++ Number_str (ChartSlice.value first) ++ "% market share"
         | [] => "No data available"
         end;
         "Review sales trends for optimization" ];
     recommendations :=
       [ if negb (Label_eqb top_product (LText "N/A"))
         then "Focus marketing efforts on " ++ Label_str top_product ++ " success"
         else "No top product identified";
         "Analyze underperforming products";
         if negb (String.eqb top_month "N/A")
         then "Consider expanding successful " ++ top_month ++ " strategies"
         else "No top month identified" ] |}.

Section Handler.

(** [pd.to_datetime] on a column that is not yet datetime64 (text to parse,
    integers read as epoch offsets): pandas' own conversion, not part of the
    repository. *)
Variable to_datetime_convert : Column -> ToDatetime.

Definition to_datetime (c : Column) : ToDatetime :=
  match c with
  | DatetimeCol dates => Converted dates
  | _ => to_datetime_convert c
  end.

(** Lines 17-57: request validation, reading, schema and type checks, date
    parsing.  Hands on the month parameter and the table. *)
Definition load_table (request : Request) : M (string * Table) :=
  logger ReceivedRequest ;;
  match file request with
  | None =>
      logger NoFilePart ;;
      return_ (bad_request "No file part in request")
  | Some f =>
      if String.eqb (filename f) EmptyString then
        logger NoFileSelected ;;
        return_ (bad_request "No file selected")
      else if negb (PyStr.endswith_any (filename f) [".xlsx"; ".xls"]) then
        logger (InvalidFileFormat (filename f)) ;;
        return_ (bad_request
          "Invalid file format. Please upload an Excel file (.xlsx or .xls)")
      else
        let specific_months := form_get (specificMonths request) "Jan" in
        let product_filter := form_get (productFilter request) "all" in
        logger (ReceivedParameters specific_months product_filter) ;;
        logger (ReadingFile (filename f)) ;;
        match read_excel f with
        | ReadError e => raise e
        | Parsed df =>
            logger (ExcelColumns (columns df)) ;;
            let missing_columns :=
              filter (fun col => negb (has_column df col)) required_columns in
            if negb (is_empty missing_columns) then
              logger (MissingColumns missing_columns) ;;
              return_ (bad_request
                ("Missing required columns: " ++ PyStr.join ", " missing_columns))
            else
              sales <- getitem df "Sales" ;;
              revenue <- getitem df "Revenue" ;;
              if negb (is_numeric_dtype sales) || negb (is_numeric_dtype revenue) then
                logger NonNumericValues ;;
                return_ (bad_request
                  "Sales and Revenue columns must contain numeric values")
              else
                date <- getitem df "Date" ;;
                match to_datetime date with
                | ValueError e =>
                    logger (InvalidDateFormat e) ;;
                    return_ (bad_request ("Invalid date format in Date column: " ++ e))
                | OtherError e => raise e
                | Converted dates =>
                    product <- getitem df "Product" ;;
                    ret (specific_months,
                         records dates (int64_values sales) (int64_values revenue)
                                 (labels product))
                end
        end
  end.

(** Lines 59-73: the month filter.  (Nothing inside its [try] raises on a
    datetime64 column, so the [except] arm is not reached.) *)
Definition filter_months (specific_months : string) (df : Table) : M Table :=
  if negb (String.eqb specific_months EmptyString) then
    let month_list := map PyStr.strip (PyStr.split "," specific_months) in
    let recent_data :=
      filter (fun r => isin (strftime_b (Date r)) month_list) df in
    if is_empty recent_data then
      logger (NoDataForMonths specific_months) ;;
      return_ (bad_request
        ("No data found for specified months: " ++ specific_months))
    else ret recent_data
  else ret df.

(** Lines 82-184: the emptiness guard, the three aggregations, the insights
    and the assembled body. *)
Definition aggregate (recent_data : Table) : M Body :=
  if is_empty recent_data then
    logger NoDataAfterFiltering ;;
    return_ (bad_request "No data available after applying product filter")
  else
    let bar := bar_chart_data recent_data in
    let pie := pie_chart_data recent_data in
    let stats := summary_stats recent_data in
    top_month <-
      (if negb (is_empty recent_data)
       then idxmax_or_raise
              (groupby_sum String.eqb String.leb (fun r => strftime_b (Date r))
                           Sales recent_data)
       else ret "N/A") ;;
    top_product <-
      (if negb (is_empty recent_data)
       then idxmax_or_raise (groupby_sum Label_eqb Label_leb Product Sales recent_data)
       else ret (LText "N/A")) ;;
    logger AnalysisCompleted ;;
    ret {| barChartData := bar; pieChartData := pie; summaryStats := stats;
           insights := make_insights top_month top_product pie |}.

(** The handler: its log and its response. *)
Definition analyze_file (request : Request) : list LogEvent * Response :=
  let '(log, outcome) :=
    (loaded <- load_table request ;;
     recent_data <- filter_months (fst loaded) (snd loaded) ;;
     aggregate recent_data) in
  (log, match outcome with inl r => r | inr body => Ok200 body end).

Definition response (request : Request) : Response := snd (analyze_file request).

End Handler.

(* ================================================================= *)
(** ** Notions the statements use *)

(** An upload the handler accepts and decodes to the table [df]. *)
Definition accepted_upload (request : Request) (df : DataFrame) : Prop :=
  exists f, file request = Some f /\ filename f <> EmptyString /\
            PyStr.endswith_any (filename f) [".xlsx"; ".xls"] = true /\
            read_excel f = Parsed df.

Definition with_productFilter (request : Request) (v : option string) : Request :=
  {| file := file request; specificMonths := specificMonths request;
     productFilter := v |}.

Definition with_specificMonths (request : Request) (v : option string) : Request :=
  {| file := file request; specificMonths := v;
     productFilter := productFilter request |}.

(** The columns the handler reports as missing (line 42). *)
Definition missing_columns (df : DataFrame) : list string :=
  filter (fun col => negb (has_column df col)) required_columns.

(** The row mask of the month filter (lines 61 and 64). *)
Definition matches_months (specific_months : string) (r : Row) : bool :=
  isin (strftime_b (Date r)) (map PyStr.strip (PyStr.split "," specific_months)).

(** The outcome of lines 38-57 on a decoded table, without the log;
    [load_table_accepted] shows it is what the loading stage computes. *)
Definition check_frame (conv : Column -> ToDatetime) (specific_months : string)
                       (df : DataFrame) : Response + (string * Table) :=
  if negb (is_empty (missing_columns df)) then
    inl (bad_request ("Missing required columns: "
                      ++ PyStr.join ", " (missing_columns df)))
  else
    match get_column df "Sales", get_column df "Revenue" with
    | Some sales, Some revenue =>
        if negb (is_numeric_dtype sales) || negb (is_numeric_dtype revenue) then
          inl (bad_request "Sales and Revenue columns must contain numeric values")
        else
          match get_column df "Date" with
          | Some date =>
              match to_datetime conv date with
              | ValueError e =>
                  inl (bad_request ("Invalid date format in Date column: " ++ e))
              | OtherError e => inl (Error 500 ("Failed to process file: " ++ e))
              | Converted dates =>
                  match get_column df "Product" with
                  | Some product =>
                      inr (specific_months,
                           records dates (int64_values sales) (int64_values revenue)
                                   (labels product))
                  | None => inl (Error 500 "Failed to process file: 'Product'")
                  end
              end
          | None => inl (Error 500 "Failed to process file: 'Date'")
          end
    | None, _ => inl (Error 500 "Failed to process file: 'Sales'")
    | _, None => inl (Error 500 "Failed to process file: 'Revenue'")
    end.

Definition month_labels (bars : list ChartPoint.t) : list string :=
  map ChartPoint.month bars.

Definition table_months (t : Table) : list string :=
  map (fun r => strftime_b (Date r)) t.

(** The sum in unbounded integers. *)
Definition exact_sum (l : list Z) : Z := fold_right Z.add 0 l.

(** The exact sum of [val] over the rows whose key is [k]. *)
Definition group_total (K : Type) (eqb : K -> K -> bool) (key : Row -> K)
                       (val : Row -> Z) (t : Table) (k : K) : Z :=
  exact_sum (map val (filter (fun r => eqb (key r) k) t)).

(** Summed sales per product, as the pie groups them. *)
Definition product_totals (t : Table) : list (Label * Z) :=
  groupby_sum Label_eqb Label_leb Product Sales t.

(** The distinct products of a table. *)
Definition distinct_products (t : Table) : list Label :=
  unique Label_eqb (map Product t).

(** The sum of the [value] fields of a pie. *)
Definition sum_values (pie : list ChartSlice.t) : Q :=
  fold_right Qplus 0%Q (map (fun s => Number_to_Q (ChartSlice.value s)) pie).

(** The tenths a slice is given when total sales are positive. *)
Definition slice_tenths (total_sales : Z) (e : nat * (Label * Z)) : Z :=
  round_half_even (slice_sales e * 1000) total_sales.

(* ================================================================= *)
(** ** binary64 evaluation of the percentage

    [percent_of] takes [round(sales / total_sales * 100, 1)] in exact
    arithmetic.  This module evaluates the same expression bit for bit on
    IEEE 754 binary64, to check the inputs the scenarios below use. *)

Module Binary64.

Definition prec : Z := 53.
Definition emax : Z := 1024.

(** [float(z)] *)
Definition of_int (z : Z) : spec_float := binary_normalize prec emax z 0 false.

Definition div : spec_float -> spec_float -> spec_float := SFdiv prec emax.
Definition mul : spec_float -> spec_float -> spec_float := SFmul prec emax.

(** [np.rint]: the nearest integer, ties to even. *)
Definition rint (x : spec_float) : spec_float :=
  match x with
  | S754_finite s m e =>
      if e <? 0
      then of_int (cond_Zopp s (round_half_even (Zpos m) (2 ^ (- e))))
      else x
  | _ => x
  end.

(** [round(x, 1)] on a numpy float64: scale by 10, [rint], scale back. *)
Definition round1 (x : spec_float) : spec_float :=
  div (rint (mul x (of_int 10))) (of_int 10).

(** [round(sales / total_sales * 100, 1)] *)
Definition percent (sales total_sales : Z) : spec_float :=
  round1 (mul (div (of_int sales) (of_int total_sales)) (of_int 100)).

(** The float nearest to [tenths / 10]: what the literal [d.d] denotes. *)
Definition of_tenths (tenths : Z) : spec_float := div (of_int tenths) (of_int 10).

(** Whether the exact-arithmetic value is the float the code computes. *)
Definition agrees (sales total_sales : Z) : bool :=
  match percent_of sales total_sales with
  | Float1 t => SFeqb (percent sales total_sales) (of_tenths t)
  | PyInt _ => false
  end.

End Binary64.

(* ================================================================= *)
(** ** Scenario data *)

Definition on (m : Month) (d : Z) : Timestamp :=
  {| year := 2024; month_of := m; day := d |}.

(** An upload named [sales.xlsx] that decodes to [df]. *)
Definition upload (df : DataFrame) (months : option string) : Request :=
  {| file := Some {| filename := "sales.xlsx"; read_excel := Parsed df |};
     specificMonths := months; productFilter := None |}.

(** A converter that refuses every column that is not yet datetime64. *)
Definition no_conversion : Column -> ToDatetime :=
  fun _ => ValueError "Unknown datetime string format".

(** The table of the specification's scenario. *)
Definition scenario_frame : DataFrame :=
  [ ("Date", DatetimeCol [on Jan 5; on Jan 12; on Feb 1]);
    ("Sales", Int64Col [10; 20; 5]);
    ("Revenue", Int64Col [100; 200; 50]);
    ("Product", ObjectCol ["A"; "B"; "A"]) ].

Definition scenario_table : Table :=
  [ {| Date := on Jan 5; Sales := 10; Revenue := 100; Product := LText "A" |};
    {| Date := on Jan 12; Sales := 20; Revenue := 200; Product := LText "B" |};
    {| Date := on Feb 1; Sales := 5; Revenue := 50; Product := LText "A" |} ].

Definition january_rows : Table := firstn 2 scenario_table.

Definition january_bars : list ChartPoint.t :=
  [ {| ChartPoint.month := "Jan"; ChartPoint.sales := 30;
       ChartPoint.color := "#3B82F6" |} ].

Definition january_pie : list ChartSlice.t :=
  [ {| ChartSlice.name := LText "B"; ChartSlice.value := Float1 667;
       ChartSlice.color := "#10B981" |};
    {| ChartSlice.name := LText "A"; ChartSlice.value := Float1 333;
       ChartSlice.color := "#3B82F6" |} ].

Definition january_body : Body :=
  {| barChartData := january_bars;
     pieChartData := january_pie;
     summaryStats :=
       [ {| SummaryStat.label := "Total Revenue"; SummaryStat.value := "$300.00";
            SummaryStat.trend := "neutral" |};
         {| SummaryStat.label := "Total Sales"; SummaryStat.value := "30";
            SummaryStat.trend := "neutral" |};
         {| SummaryStat.label := "Average Sales"; SummaryStat.value := "15.00";
            SummaryStat.trend := "neutral" |} ];
     insights :=
       {| topPerformers :=
            [ "Jan showed the highest sales volume";
              "B dominates with 66.7% market share";
              "Review sales trends for optimization" ];
          recommendations :=
            [ "Focus marketing efforts on B success";
              "Analyze underperforming products";
              "Consider expanding successful Jan strategies" ] |} |}.

(** Three products whose shares 1/17, 2/17 and 14/17 each round upwards. *)
Definition rounding_frame : DataFrame :=
  [ ("Date", DatetimeCol [on Jan 5; on Jan 12; on Jan 20]);
    ("Sales", Int64Col [1; 2; 14]);
    ("Revenue", Int64Col [10; 20; 140]);
    ("Product", ObjectCol ["A"; "B"; "C"]) ].

(** A table without its Sales and Revenue columns. *)
Definition two_column_frame : DataFrame :=
  [ ("Date", DatetimeCol [on Jan 5]); ("Product", ObjectCol ["A"]) ].

(** A table whose Sales column holds text in its second cell. *)
Definition text_sales_frame : DataFrame :=
  [ ("Date", DatetimeCol [on Jan 5; on Jan 12; on Feb 1]);
    ("Sales", ObjectCol ["10"; "pending"; "5"]);
    ("Revenue", Int64Col [100; 200; 50]);
    ("Product", ObjectCol ["A"; "B"; "A"]) ].

(* ================================================================= *)
(** ** Notions the further properties use *)

Unset Implicit Arguments.

(** The status of an error response. *)
Definition failure_status (r : Response) : option Z :=
  match r with Ok200 _ => None | Error status _ => Some status end.

(** The rows the month filter selects: all of them for an empty parameter. *)
Definition selected_rows (specific_months : string) (df : Table) : Table :=
  if String.eqb specific_months EmptyString then df
  else filter (matches_months specific_months) df.

(** A decoded table passes the schema, type and date checks and reads as the
    rows [t]. *)
Definition loads_as (conv : Column -> ToDatetime) (frame : DataFrame) (t : Table) : Prop :=
  exists date dates sales revenue product,
    get_column frame "Date" = Some date /\
    to_datetime conv date = Converted dates /\
    get_column frame "Sales" = Some (Int64Col sales) /\
    get_column frame "Revenue" = Some (Int64Col revenue) /\
    get_column frame "Product" = Some product /\
    t = records dates sales revenue (labels product).

(** The events written with [logger.error]; the others use [logger.info]. *)
Definition is_error_event (e : LogEvent) : bool :=
  match e with
  | ReceivedRequest | ReceivedParameters _ _ | ReadingFile _ | ExcelColumns _
  | AnalysisCompleted => false
  | _ => true
  end.

(** A stage logs well: if it returns a response, that is an error response
    and the log written ends with the one error event; if it goes on, no
    error event was written. *)
Definition logs_well (A : Type) (m : M A) : Prop :=
  match snd m with
  | inl r =>
      failure_status r <> None /\
      exists l e, fst m = (l ++ [e])%list /\ is_error_event e = true /\
                  Forall (fun e' => is_error_event e' = false) l
  | inr _ => Forall (fun e' => is_error_event e' = false) (fst m)
  end.

Arguments logs_well {A} m.

(** Summed sales per month label, as the bars group them. *)
Definition month_totals (t : Table) : list (string * Z) :=
  groupby_sum String.eqb String.leb (fun r => strftime_b (Date r)) Sales t.

(** The value a slice with the given summed sales gets. *)
Definition slice_value (total_sales sales : Z) : Number :=
  if 0 <? total_sales then percent_of sales total_sales else PyInt 0.

(** The distinct products in ascending order: the index of the grouped frame. *)
Definition sorted_products (t : Table) : list Label :=
  group_keys Label_eqb Label_leb (map Product t).

(** The twelve months. *)
Definition all_months : list Month :=
  [Jan; Feb; Mar; Apr; May; Jun; Jul; Aug; Sep; Oct; Nov; Dec].

(** The reasons the checks of lines 40-57 give for rejecting a decoded
    table. *)
Inductive frame_rejection (conv : Column -> ToDatetime) (frame : DataFrame)
  : string -> Prop :=
| RejectMissing :
    missing_columns frame <> [] ->
    frame_rejection conv frame
      ("Missing required columns: " ++ PyStr.join ", " (missing_columns frame))
| RejectNonNumeric sales revenue :
    missing_columns frame = [] ->
    get_column frame "Sales" = Some sales ->
    get_column frame "Revenue" = Some revenue ->
    is_numeric_dtype sales = false \/ is_numeric_dtype revenue = false ->
    frame_rejection conv frame "Sales and Revenue columns must contain numeric values"
| RejectDate sales revenue date e :
    missing_columns frame = [] ->
    get_column frame "Sales" = Some (Int64Col sales) ->
    get_column frame "Revenue" = Some (Int64Col revenue) ->
    get_column frame "Date" = Some date ->
    to_datetime conv date = ValueError e ->
    frame_rejection conv frame ("Invalid date format in Date column: " ++ e).

(** Line 61: the comma-separated entries, trimmed. *)
Definition month_list (specific_months : string) : list string :=
  map PyStr.strip (PyStr.split "," specific_months).

(** Whether the parameter lists the month. *)
Definition lists_month (specific_months : string) (m : Month) : bool :=
  isin (month_abbr m) (month_list specific_months).

(** The scenario table with its rows in another order. *)
Definition reordered_frame : DataFrame :=
  [ ("Date", DatetimeCol [on Feb 1; on Jan 12; on Jan 5]);
    ("Sales", Int64Col [5; 20; 10]);
    ("Revenue", Int64Col [50; 200; 100]);
    ("Product", ObjectCol ["A"; "B"; "A"]) ].

Definition reordered_table : Table := rev scenario_table.

(* ================================================================= *)
(** * Properties *)

Unset Implicit Arguments.

(** ** The definitions on small inputs *)

Example strip_ex : PyStr.strip "  Feb " = "Feb".
Proof. reflexivity. Qed.

Example split_ex : PyStr.split "," "Jan, Feb,,Mar" = ["Jan"; " Feb"; EmptyString; "Mar"].
Proof. reflexivity. Qed.

Example endswith_ex :
  PyStr.endswith_any "q1.xlsx" [".xlsx"; ".xls"] = true /\
  PyStr.endswith_any "q1.csv" [".xlsx"; ".xls"] = false /\
  PyStr.endswith_any "xls" [".xlsx"; ".xls"] = false.
Proof. repeat split; reflexivity. Qed.

Example grouped_ex : PyStr.grouped 1234567 = "1,234,567" /\ PyStr.grouped 999 = "999".
Proof. split; reflexivity. Qed.

Example percent_of_ex :
  percent_of 10 30 = Float1 333 /\ percent_of 20 30 = Float1 667 /\
  percent_of 1 8 = Float1 125 /\ percent_of 1 2000 = Float1 0 /\
  percent_of 3 2000 = Float1 2.
Proof. repeat split; reflexivity. Qed.

Example format_ex :
  format_2f 12345 1 = "12,345.00" /\ format_2f 35 2 = "17.50" /\
  format_2f (-1) 3 = "-0.33" /\ format_0f 1234567 = "1,234,567" /\
  Number_str (Float1 667) = "66.7" /\ Number_str (Float1 1000) = "100.0" /\
  Number_str (PyInt 0) = "0".
Proof. repeat split; reflexivity. Qed.

Example groupby_sum_ex :
  groupby_sum String.eqb String.leb (fun r => strftime_b (Date r)) Sales
    [ {| Date := {| year := 2024; month_of := Mar; day := 1 |}; Sales := 4;
         Revenue := 0; Product := LText "x" |};
      {| Date := {| year := 2024; month_of := Apr; day := 9 |}; Sales := 1;
         Revenue := 0; Product := LText "y" |};
      {| Date := {| year := 2024; month_of := Mar; day := 7 |}; Sales := 2;
         Revenue := 0; Product := LText "x" |} ]
  = [("Apr", 1); ("Mar", 6)].
Proof. reflexivity. Qed.

Example sort_values_desc_ex :
  sort_values_desc snd [(0%nat, 5); (1%nat, 9); (2%nat, 5); (3%nat, 7)]
  = [(1%nat, 9); (3%nat, 7); (0%nat, 5); (2%nat, 5)].
Proof. reflexivity. Qed.

Example idxmax_ex :
  idxmax [("a", 3); ("b", 8); ("c", 8)] = Some "b" /\ idxmax (K := string) [] = None.
Proof. split; reflexivity. Qed.

(** ** The monad and the stages *)

Lemma snd_bind {A B : Type} (m : M A) (f : A -> M B) :
  snd (bind m f) = match snd m with inl r => inl r | inr a => snd (f a) end.
Proof.
  destruct m as [l [r | a]]; simpl; [reflexivity |].
  destruct (f a); reflexivity.
Qed.

Lemma fst_bind {A B : Type} (m : M A) (f : A -> M B) :
  fst (bind m f) =
  match snd m with inl _ => fst m | inr a => (fst m ++ fst (f a))%list end.
Proof.
  destruct m as [l [r | a]]; simpl; [reflexivity |].
  destruct (f a); reflexivity.
Qed.

(** The response is the first response a stage returns, or the body the
    last stage builds. *)
Lemma response_stages conv request :
  response conv request =
  match snd (load_table conv request) with
  | inl r => r
  | inr loaded =>
      match snd (filter_months (fst loaded) (snd loaded)) with
      | inl r => r
      | inr recent_data =>
          match snd (aggregate recent_data) with
          | inl r => r
          | inr body => Ok200 body
          end
      end
  end.
Proof.
  unfold response, analyze_file.
  match goal with |- snd (let '(_, _) := ?m in _) = _ =>
    pose proof (snd_bind (load_table conv request)
                  (fun loaded => recent_data <- filter_months (fst loaded) (snd loaded) ;;
                                 aggregate recent_data)) as H;
    destruct m as [log outcome] end.
  simpl in *. subst outcome.
  destruct (snd (load_table conv request)) as [r | loaded]; [reflexivity |].
  rewrite snd_bind.
  destruct (snd (filter_months (fst loaded) (snd loaded))); reflexivity.
Qed.

Lemma log_stages conv request :
  fst (analyze_file conv request) =
  match snd (load_table conv request) with
  | inl _ => fst (load_table conv request)
  | inr loaded =>
      (fst (load_table conv request) ++
       match snd (filter_months (fst loaded) (snd loaded)) with
       | inl _ => fst (filter_months (fst loaded) (snd loaded))
       | inr recent_data =>
           fst (filter_months (fst loaded) (snd loaded)) ++ fst (aggregate recent_data)
       end)%list
  end.
Proof.
  unfold analyze_file.
  match goal with |- fst (let '(_, _) := ?m in _) = _ =>
    pose proof (fst_bind (load_table conv request)
                  (fun loaded => recent_data <- filter_months (fst loaded) (snd loaded) ;;
                                 aggregate recent_data)) as H;
    destruct m as [log outcome] end.
  simpl in *. subst log.
  destruct (snd (load_table conv request)) as [r | loaded]; [reflexivity |].
  rewrite fst_bind. reflexivity.
Qed.

(** ** Group keys: distinct and sorted *)

Section GroupByFacts.

Variable K : Type.
Variable eqb : K -> K -> bool.
Variable leb : K -> K -> bool.
Hypothesis eqb_eq : forall a b, eqb a b = true <-> a = b.

Lemma unique_In (k : K) (l : list K) : In k (unique eqb l) <-> In k l.
Proof.
  induction l as [| x l IH]; simpl; [tauto |].
  rewrite filter_In, IH. split.
  - intros [-> | [H _]]; auto.
  - intros [-> | H]; [now left |].
    destruct (eqb k x) eqn:E.
    + left. symmetry. now apply eqb_eq.
    + right. now split.
Qed.

Lemma unique_NoDup (l : list K) : NoDup (unique eqb l).
Proof.
  induction l as [| x l IH]; simpl; constructor.
  - rewrite filter_In. intros [_ H].
    assert (E : eqb x x = true) by now apply eqb_eq.
    rewrite E in H. discriminate.
  - now apply NoDup_filter.
Qed.

Lemma insert_sorted_perm (k : K) (l : list K) :
  Permutation (insert_sorted leb k l) (k :: l).
Proof.
  induction l as [| x l IH]; simpl; [reflexivity |].
  destruct (leb k x); [reflexivity |].
  rewrite IH. apply perm_swap.
Qed.

Lemma sort_keys_perm (l : list K) : Permutation (sort_keys leb l) l.
Proof.
  induction l as [| x l IH]; simpl; [reflexivity |].
  rewrite insert_sorted_perm. now constructor.
Qed.

Lemma group_keys_In (k : K) (l : list K) : In k (group_keys eqb leb l) <-> In k l.
Proof.
  unfold group_keys. rewrite <- (unique_In k l).
  split; apply Permutation_in; [| symmetry]; apply sort_keys_perm.
Qed.

Lemma group_keys_NoDup (l : list K) : NoDup (group_keys eqb leb l).
Proof.
  unfold group_keys.
  eapply Permutation_NoDup; [symmetry; apply sort_keys_perm | apply unique_NoDup].
Qed.

Lemma group_keys_nonempty (l : list K) : l <> [] -> group_keys eqb leb l <> [].
Proof.
  intros Hl E. destruct l as [| x l]; [congruence |].
  assert (H : In x (group_keys eqb leb (x :: l))) by (apply group_keys_In; now left).
  rewrite E in H. contradiction.
Qed.

Lemma groupby_sum_keys key val (t : Table) :
  map fst (groupby_sum eqb leb key val t) = group_keys eqb leb (map key t).
Proof.
  unfold groupby_sum. rewrite map_map. simpl. apply map_id.
Qed.

Lemma groupby_sum_In key val (t : Table) k s :
  In (k, s) (groupby_sum eqb leb key val t) <->
  In k (map key t) /\
  s = sum_int64 (map val (filter (fun r => eqb (key r) k) t)).
Proof.
  unfold groupby_sum. rewrite in_map_iff. split.
  - intros [k' [E H]]. inversion E; subst. split; [| reflexivity].
    exact (proj1 (group_keys_In k _) H).
  - intros [H ->]. exists k. split; [reflexivity |].
    exact (proj2 (group_keys_In k _) H).
Qed.

Section Sorted.

Hypothesis leb_total : forall a b, leb a b = true \/ leb b a = true.
Hypothesis leb_trans : forall a b c, leb a b = true -> leb b c = true -> leb a c = true.

Lemma insert_sorted_sorted (k : K) (l : list K) :
  StronglySorted (fun a b => leb a b = true) l ->
  StronglySorted (fun a b => leb a b = true) (insert_sorted leb k l).
Proof.
  induction 1 as [| x l Hs IH Hx]; simpl; [repeat constructor |].
  destruct (leb k x) eqn:E.
  - constructor; [now constructor |].
    constructor; [assumption |].
    eapply Forall_impl; [| exact Hx]. intros y Hy. eauto.
  - constructor; [assumption |].
    eapply Permutation_Forall; [symmetry; apply insert_sorted_perm |].
    constructor; [| assumption].
    destruct (leb_total k x); congruence.
Qed.

Lemma sort_keys_sorted (l : list K) :
  StronglySorted (fun a b => leb a b = true) (sort_keys leb l).
Proof.
  induction l; simpl; [constructor | now apply insert_sorted_sorted].
Qed.

End Sorted.

End GroupByFacts.

(** ** The order on strings *)

Lemma String_leb_trans (a b c : string) :
  String.leb a b = true -> String.leb b c = true -> String.leb a c = true.
Proof.
  unfold String.leb. revert b c.
  induction a as [| x a IH]; intros [| y b] [| z c]; simpl; try easy.
  destruct (Ascii.compare x y) eqn:Exy; try easy.
  - apply Ascii.compare_eq_iff in Exy. subst y.
    destruct (Ascii.compare x z); try easy. apply IH.
  - intros _. destruct (Ascii.compare y z) eqn:Eyz; try easy.
    + apply Ascii.compare_eq_iff in Eyz. subst z. now rewrite Exy.
    + unfold Ascii.compare in *. rewrite N.compare_lt_iff in *.
      assert (H : (N_of_ascii x < N_of_ascii z)%N) by lia.
      apply N.compare_lt_iff in H. now rewrite H.
Qed.

Lemma String_ltb_leb (a b : string) :
  String.ltb a b = true <-> String.leb a b = true /\ a <> b.
Proof.
  unfold String.ltb, String.leb.
  destruct (String.compare a b) eqn:E.
  - apply String.compare_eq_iff in E. split; [discriminate | now intros [_ H]].
  - split; [| reflexivity]. intros _. split; [reflexivity |]. intros ->.
    pose proof E as E'. rewrite String.compare_antisym, E in E'. discriminate.
  - split; [discriminate | now intros [H _]].
Qed.

Lemma strictly_ascending (l : list string) :
  StronglySorted (fun a b => String.leb a b = true) l -> NoDup l ->
  StronglySorted (fun a b => String.ltb a b = true) l.
Proof.
  induction 1 as [| x l Hs IH Hx]; intros Hnd; constructor;
    inversion Hnd as [| ? ? Hnotin Hnd']; subst.
  - now apply IH.
  - rewrite Forall_forall in *. intros y Hy.
    apply String_ltb_leb. split; [now apply Hx |].
    intros ->. contradiction.
Qed.

Lemma String_eqb_eq (a b : string) : String.eqb a b = true <-> a = b.
Proof. apply String.eqb_eq. Qed.

(** ** Indexing *)

Lemma reset_index_snd {A : Type} (l : list A) : map snd (reset_index l) = l.
Proof.
  unfold reset_index. generalize 0%nat.
  induction l as [| x l IH]; intros n; simpl; [reflexivity |].
  now rewrite IH.
Qed.

Lemma reset_index_length {A : Type} (l : list A) :
  List.length (reset_index l) = List.length l.
Proof. rewrite <- (reset_index_snd l) at 2. now rewrite length_map. Qed.

(** ** Monthly bars *)

Lemma bar_months (t : Table) :
  month_labels (bar_chart_data t) = group_keys String.eqb String.leb (table_months t).
Proof.
  unfold month_labels, bar_chart_data, table_months.
  rewrite <- groupby_sum_keys with (val := Sales), map_map.
  rewrite <- (reset_index_snd (groupby_sum _ _ _ _ _)) at 2.
  rewrite map_map. apply map_ext. now intros [i [m s]].
Qed.

(** ** The aggregation stage *)

Lemma idxmax_nonempty {K : Type} (s : list (K * Z)) :
  s <> [] -> exists k, idxmax s = Some k.
Proof. destruct s; [congruence | intros _; eexists; reflexivity]. Qed.

Lemma groupby_sum_nonempty (K : Type) (eqb leb : K -> K -> bool) key val (t : Table) :
  (forall a b, eqb a b = true <-> a = b) ->
  t <> [] -> groupby_sum eqb leb key val t <> [].
Proof.
  intros Heq Ht E. apply (f_equal (map fst)) in E.
  rewrite groupby_sum_keys in E. simpl in E.
  revert E. apply group_keys_nonempty; [assumption |].
  destruct t; [congruence | discriminate].
Qed.

Lemma Timestamp_eqb_eq (a b : Timestamp) : Timestamp_eqb a b = true <-> a = b.
Proof.
  unfold Timestamp_eqb. rewrite !andb_true_iff, !Z.eqb_eq. split.
  - destruct a as [ya ma da], b as [yb mb db]; simpl. intros [[-> Hm] ->].
    f_equal. destruct ma, mb; simpl in Hm; try reflexivity; discriminate.
  - now intros ->.
Qed.

Lemma Label_eqb_eq (a b : Label) : Label_eqb a b = true <-> a = b.
Proof.
  destruct a, b; simpl; try (split; [discriminate | congruence]).
  - rewrite Z.eqb_eq. split; congruence.
  - rewrite Timestamp_eqb_eq. split; congruence.
  - rewrite String.eqb_eq. split; congruence.
Qed.

Lemma aggregate_empty : aggregate [] =
  ([NoDataAfterFiltering],
   inl (bad_request "No data available after applying product filter")).
Proof. reflexivity. Qed.

Lemma aggregate_nonempty (recent_data : Table) :
  recent_data <> [] ->
  exists top_month top_product,
    idxmax (groupby_sum String.eqb String.leb (fun r => strftime_b (Date r)) Sales
                        recent_data) = Some top_month /\
    idxmax (groupby_sum Label_eqb Label_leb Product Sales recent_data)
      = Some top_product /\
    aggregate recent_data =
    ([AnalysisCompleted],
     inr {| barChartData := bar_chart_data recent_data;
            pieChartData := pie_chart_data recent_data;
            summaryStats := summary_stats recent_data;
            insights := make_insights top_month top_product
                                      (pie_chart_data recent_data) |}).
Proof.
  intros Hne.
  destruct (idxmax_nonempty _
              (groupby_sum_nonempty _ String.eqb String.leb
                 (fun r => strftime_b (Date r)) Sales _ String_eqb_eq Hne))
    as [tm Htm].
  destruct (idxmax_nonempty _
              (groupby_sum_nonempty _ Label_eqb Label_leb Product Sales _
                 Label_eqb_eq Hne))
    as [tp Htp].
  exists tm, tp. repeat split; try assumption.
  unfold aggregate, idxmax_or_raise.
  destruct recent_data as [| r t]; [congruence |].
  cbn [is_empty negb]. rewrite Htm, Htp. reflexivity.
Qed.

Lemma aggregate_inv (recent_data : Table) (body : Body) :
  completes (aggregate recent_data) body ->
  recent_data <> [] /\
  barChartData body = bar_chart_data recent_data /\
  pieChartData body = pie_chart_data recent_data /\
  summaryStats body = summary_stats recent_data.
Proof.
  unfold completes. destruct recent_data as [| r t].
  - rewrite aggregate_empty. discriminate.
  - destruct (aggregate_nonempty (r :: t)) as [tm [tp [_ [_ E]]]]; [discriminate |].
    rewrite E. simpl. intros H. inversion H. repeat split. discriminate.
Qed.

(** A request whose table passed the month filter gets the aggregation
    stage's outcome as its response. *)
Lemma response_after_filter conv request sm df recent_data :
  completes (load_table conv request) (sm, df) ->
  completes (filter_months sm df) recent_data ->
  response conv request =
  match snd (aggregate recent_data) with inl r => r | inr body => Ok200 body end.
Proof.
  unfold completes. intros Hl Hf.
  rewrite response_stages, Hl. simpl. now rewrite Hf.
Qed.

Lemma response_Ok200_inv conv request sm df recent_data body :
  completes (load_table conv request) (sm, df) ->
  completes (filter_months sm df) recent_data ->
  response conv request = Ok200 body ->
  completes (aggregate recent_data) body.
Proof.
  intros Hl Hf. rewrite (response_after_filter _ _ _ _ _ Hl Hf). unfold completes.
  destruct recent_data as [| r t].
  - rewrite aggregate_empty. discriminate.
  - destruct (aggregate_nonempty (r :: t)) as [tm [tp [_ [_ E]]]]; [discriminate |].
    rewrite E. simpl. congruence.
Qed.

(** ** The loading stage *)

Ltac stage_step :=
  cbn [snd logger ret raise return_];
  repeat (rewrite snd_bind; cbn [snd logger ret raise return_]).

Lemma load_table_accepted conv request df :
  accepted_upload request df ->
  snd (load_table conv request) =
  check_frame conv (form_get (specificMonths request) "Jan") df.
Proof.
  intros [f [Hf [Hname [Hext Hread]]]].
  unfold load_table, check_frame, missing_columns, getitem. stage_step.
  rewrite Hf. apply String.eqb_neq in Hname. rewrite Hname, Hext. cbn [negb].
  stage_step. rewrite Hread. stage_step.
  destruct (negb (is_empty _)); stage_step; [reflexivity |].
  destruct (get_column df "Sales") as [sales |]; stage_step; [| reflexivity].
  destruct (get_column df "Revenue") as [revenue |]; stage_step; [| reflexivity].
  destruct (negb (is_numeric_dtype sales) || negb (is_numeric_dtype revenue));
    stage_step; [reflexivity |].
  destruct (get_column df "Date") as [date |]; stage_step; [| reflexivity].
  destruct (to_datetime conv date); stage_step; try reflexivity.
  destruct (get_column df "Product") as [product |]; stage_step; reflexivity.
Qed.

Lemma response_of_load conv request r :
  snd (load_table conv request) = inl r -> response conv request = r.
Proof. intros H. now rewrite response_stages, H. Qed.

Lemma has_column_In (df : DataFrame) (col : string) :
  has_column df col = true <-> In col (columns df).
Proof.
  unfold has_column. rewrite existsb_exists. split.
  - intros [x [Hx E]]. apply String.eqb_eq in E. now subst.
  - intros H. exists col. split; [assumption | apply String.eqb_refl].
Qed.

Lemma get_column_Some (df : DataFrame) (col : string) :
  In col (columns df) -> exists c, get_column df col = Some c.
Proof.
  induction df as [| [name c] df IH]; simpl; [contradiction |].
  intros [-> | H].
  - rewrite String.eqb_refl. now exists c.
  - destruct (String.eqb name col); [now exists c | now apply IH].
Qed.

Lemma missing_columns_In (df : DataFrame) (col : string) :
  In col (missing_columns df) <-> In col required_columns /\ ~ In col (columns df).
Proof.
  unfold missing_columns. rewrite filter_In, negb_true_iff, <- has_column_In.
  now rewrite not_true_iff_false.
Qed.

Lemma missing_columns_NoDup (df : DataFrame) : NoDup (missing_columns df).
Proof.
  apply NoDup_filter. unfold required_columns.
  repeat constructor; simpl; intuition discriminate.
Qed.

(** C5. An uploaded table that lacks any of Date, Sales, Revenue, Product is
    answered with HTTP 400 and the message "Missing required columns: "
    followed by the comma-separated list of exactly the absent names, each
    once and in the order Date, Sales, Revenue, Product.  The answer is the
    same whatever the columns that are present hold, so no type or date check
    comes first. *)
Theorem missing_columns_rejected conv request df :
  accepted_upload request df ->
  (exists col, In col required_columns /\ ~ In col (columns df)) ->
  response conv request =
    Error 400 ("Missing required columns: " ++ PyStr.join ", " (missing_columns df)) /\
  returns (load_table conv request)
    (Error 400 ("Missing required columns: " ++ PyStr.join ", " (missing_columns df))) /\
  (forall col, In col (missing_columns df) <->
               In col required_columns /\ ~ In col (columns df)) /\
  NoDup (missing_columns df) /\
  missing_columns df = filter (fun col => negb (existsb (String.eqb col) (columns df)))
                              ["Date"; "Sales"; "Revenue"; "Product"].
Proof.
  intros Hup [col Hcol].
  assert (Hload : snd (load_table conv request) =
                  inl (Error 400 ("Missing required columns: "
                                  ++ PyStr.join ", " (missing_columns df)))).
  { rewrite (load_table_accepted conv _ _ Hup). unfold check_frame.
    apply missing_columns_In in Hcol.
    destruct (missing_columns df); [contradiction | reflexivity]. }
  split; [now apply response_of_load |].
  split; [exact Hload |].
  split; [apply missing_columns_In |].
  split; [apply missing_columns_NoDup | reflexivity].
Qed.


(** C9. Two requests that differ only in [productFilter] get the same
    response: the parameter is read and logged, never applied. *)
Theorem productFilter_is_inert conv request v1 v2 :
  response conv (with_productFilter request v1) =
  response conv (with_productFilter request v2).
Proof.
  rewrite !response_stages.
  assert (H : snd (load_table conv (with_productFilter request v1)) =
              snd (load_table conv (with_productFilter request v2))).
  { unfold load_table, getitem, with_productFilter. cbn [file specificMonths productFilter].
    stage_step. destruct (file request) as [f |]; stage_step; [| reflexivity].
    destruct (String.eqb (filename f) EmptyString); stage_step; [reflexivity |].
    destruct (negb (PyStr.endswith_any _ _)); stage_step; reflexivity. }
  now rewrite H.
Qed.

Lemma load_table_inv conv request sm df :
  completes (load_table conv request) (sm, df) ->
  exists frame, accepted_upload request frame /\
                check_frame conv (form_get (specificMonths request) "Jan") frame
                = inr (sm, df).
Proof.
  unfold completes. intros H.
  assert (Hup : exists frame, accepted_upload request frame).
  { revert H. unfold load_table, accepted_upload. stage_step.
    destruct (file request) as [f |]; stage_step; [| discriminate].
    destruct (String.eqb (filename f) EmptyString) eqn:En; stage_step; [discriminate |].
    destruct (PyStr.endswith_any (filename f) [".xlsx"; ".xls"]) eqn:Ee;
      cbn [negb]; stage_step; [| discriminate].
    destruct (read_excel f) as [frame | e] eqn:Er; stage_step; [| discriminate].
    intros _. exists frame, f. apply String.eqb_neq in En. auto. }
  destruct Hup as [frame Hup]. exists frame. split; [assumption |].
  now rewrite <- (load_table_accepted conv _ _ Hup).
Qed.

Lemma check_frame_months conv s1 s2 frame sm df :
  check_frame conv s1 frame = inr (sm, df) ->
  sm = s1 /\ check_frame conv s2 frame = inr (s2, df).
Proof.
  unfold check_frame.
  destruct (negb (is_empty (missing_columns frame))); [discriminate |].
  destruct (get_column frame "Sales") as [sales |]; [| discriminate].
  destruct (get_column frame "Revenue") as [revenue |]; [| discriminate].
  destruct (negb (is_numeric_dtype sales) || negb (is_numeric_dtype revenue));
    [discriminate |].
  destruct (get_column frame "Date") as [date |]; [| discriminate].
  destruct (to_datetime conv date); try discriminate.
  destruct (get_column frame "Product") as [product |]; [| discriminate].
  intros H. inversion H. split; reflexivity.
Qed.

(** The month parameter handed on is the form field, or "Jan" without one. *)
Lemma load_table_months conv request sm df :
  completes (load_table conv request) (sm, df) ->
  sm = form_get (specificMonths request) "Jan".
Proof.
  intros H. apply load_table_inv in H. destruct H as [frame [_ H]].
  now apply (check_frame_months conv _ EmptyString) in H.
Qed.

(** The table handed on does not depend on the month parameter. *)
Lemma load_table_with_months conv request v1 v2 sm df :
  completes (load_table conv (with_specificMonths request v1)) (sm, df) ->
  completes (load_table conv (with_specificMonths request v2)) (form_get v2 "Jan", df).
Proof.
  intros H. apply load_table_inv in H. destruct H as [frame [Hup H]].
  unfold completes.
  rewrite (load_table_accepted conv (with_specificMonths request v2) frame Hup).
  cbn [with_specificMonths specificMonths] in *.
  now apply (check_frame_months conv _ (form_get v2 "Jan")) in H.
Qed.

(** ** The month filter *)

Lemma filter_months_empty_string (df : Table) : filter_months EmptyString df = ret df.
Proof. reflexivity. Qed.

Lemma filter_months_outcome (sm : string) (df : Table) :
  sm <> EmptyString ->
  snd (filter_months sm df) =
  match filter (matches_months sm) df with
  | [] => inl (Error 400 ("No data found for specified months: " ++ sm))
  | recent_data => inr recent_data
  end.
Proof.
  intros H. apply String.eqb_neq in H. unfold filter_months. rewrite H. cbn [negb].
  fold (matches_months sm).
  destruct (filter (matches_months sm) df); stage_step; reflexivity.
Qed.

Lemma contains_suffix (p s : string) : PyStr.contains s (p ++ s) = true.
Proof.
  induction p as [| c p IH]; simpl.
  - destruct s as [| c s]; simpl; [reflexivity |].
    assert (H : String.prefix s s = true).
    { clear c. induction s as [| c s IH]; simpl; [reflexivity |].
      destruct (ascii_dec c c); [assumption | congruence]. }
    destruct (ascii_dec c c); [| congruence]. now rewrite H.
  - rewrite IH. apply orb_true_r.
Qed.

(** C4. When the table loaded (so the Date column parsed), the month
    parameter is a non-empty string and no row's month is in it, the month
    filter answers HTTP 400 with "No data found for specified months: "
    followed by the parameter as sent; the aggregation stage is not entered. *)
Theorem no_rows_for_months_rejected conv request sm df :
  completes (load_table conv request) (sm, df) ->
  sm <> EmptyString ->
  filter (matches_months sm) df = [] ->
  sm = form_get (specificMonths request) "Jan" /\
  response conv request = Error 400 ("No data found for specified months: " ++ sm) /\
  returns (filter_months sm df)
    (Error 400 ("No data found for specified months: " ++ sm)) /\
  PyStr.contains sm ("No data found for specified months: " ++ sm) = true.
Proof.
  intros Hl Hsm Hnone.
  assert (Hf : snd (filter_months sm df) =
               inl (Error 400 ("No data found for specified months: " ++ sm))).
  { rewrite filter_months_outcome by assumption. now rewrite Hnone. }
  split; [now apply load_table_months in Hl |].
  split; [| split; [exact Hf | apply contains_suffix]].
  unfold completes in Hl. rewrite response_stages, Hl. cbn [fst snd]. now rewrite Hf.
Qed.

(** C3. In a successful response the month labels of barChartData are
    pairwise distinct, and a label occurs among them exactly when it is the
    month abbreviation of some row of the table that passed the month
    filter. *)
Theorem bar_months_are_filtered_months conv request sm df recent_data body :
  completes (load_table conv request) (sm, df) ->
  completes (filter_months sm df) recent_data ->
  response conv request = Ok200 body ->
  NoDup (month_labels (barChartData body)) /\
  forall m, In m (month_labels (barChartData body)) <->
            exists r, In r recent_data /\ strftime_b (Date r) = m.
Proof.
  intros Hl Hf Hr.
  apply (response_Ok200_inv _ _ _ _ _ _ Hl Hf), aggregate_inv in Hr.
  destruct Hr as [_ [-> _]]. rewrite bar_months. split.
  - apply group_keys_NoDup, String_eqb_eq.
  - intros m. rewrite group_keys_In by apply String_eqb_eq.
    unfold table_months. rewrite in_map_iff.
    split; intros [r [H1 H2]]; exists r; auto.
Qed.

(** C10. In a successful response the month labels of barChartData are in
    strictly ascending lexicographic order, whatever order the months have in
    the uploaded rows. *)
Theorem bar_months_ascending conv request sm df recent_data body :
  completes (load_table conv request) (sm, df) ->
  completes (filter_months sm df) recent_data ->
  response conv request = Ok200 body ->
  StronglySorted (fun a b => String.ltb a b = true) (month_labels (barChartData body)).
Proof.
  intros Hl Hf Hr.
  apply (response_Ok200_inv _ _ _ _ _ _ Hl Hf), aggregate_inv in Hr.
  destruct Hr as [_ [-> _]]. rewrite bar_months.
  apply strictly_ascending.
  - apply sort_keys_sorted; [apply String.leb_total | apply String_leb_trans].
  - apply group_keys_NoDup, String_eqb_eq.
Qed.

(** ** Listing every month *)

Lemma split_month_cons (m : Month) (rest : string) :
  PyStr.split "," (month_abbr m ++ String "," rest) = month_abbr m :: PyStr.split "," rest.
Proof. destruct m; reflexivity. Qed.

Lemma split_month (m : Month) : PyStr.split "," (month_abbr m) = [month_abbr m].
Proof. destruct m; reflexivity. Qed.

Lemma strip_month (m : Month) : PyStr.strip (month_abbr m) = month_abbr m.
Proof. destruct m; reflexivity. Qed.

Lemma split_join_months (ms : list Month) :
  ms <> [] ->
  map PyStr.strip (PyStr.split "," (PyStr.join "," (map month_abbr ms)))
  = map month_abbr ms.
Proof.
  intros Hne. unfold PyStr.join.
  induction ms as [| m ms IH]; [congruence |].
  destruct ms as [| m' ms].
  - simpl. rewrite split_month. simpl. now rewrite strip_month.
  - change (String.concat "," (map month_abbr (m :: m' :: ms)))
      with (month_abbr m ++ String "," (String.concat "," (map month_abbr (m' :: ms)))).
    rewrite split_month_cons. cbn [map]. rewrite strip_month. f_equal.
    apply IH. discriminate.
Qed.

Lemma join_months_nonempty (ms : list Month) :
  ms <> [] -> PyStr.join "," (map month_abbr ms) <> EmptyString.
Proof.
  destruct ms as [| m [| m' ms]]; [congruence | |]; intros _.
  - destruct m; discriminate.
  - unfold PyStr.join.
    change (String.concat "," (map month_abbr (m :: m' :: ms)))
      with (month_abbr m ++ String "," (String.concat "," (map month_abbr (m' :: ms)))).
    destruct m; discriminate.
Qed.

Lemma filter_all {A : Type} (f : A -> bool) (l : list A) :
  (forall x, In x l -> f x = true) -> filter f l = l.
Proof.
  induction l as [| x l IH]; simpl; [reflexivity |]. intros H.
  rewrite (H x) by now left. f_equal. apply IH. intros y Hy. apply H. now right.
Qed.


(** ** int64 sums *)

Lemma wrap64_add_l (a x : Z) : wrap64 (wrap64 a + x) = wrap64 (a + x).
Proof.
  unfold wrap64. f_equal.
  assert (E : (a + 2 ^ 63) mod 2 ^ 64 - 2 ^ 63 + x + 2 ^ 63
              = (a + 2 ^ 63) mod 2 ^ 64 + x) by lia.
  rewrite E, Zplus_mod_idemp_l. f_equal. lia.
Qed.

Lemma wrap64_small (z : Z) : - 2 ^ 63 <= z < 2 ^ 63 -> wrap64 z = z.
Proof. intros H. unfold wrap64. rewrite Z.mod_small; lia. Qed.

Lemma sum_int64_wrap (l : list Z) : sum_int64 l = wrap64 (exact_sum l).
Proof.
  unfold sum_int64.
  assert (G : forall a, fold_left (fun acc x => wrap64 (acc + x)) l (wrap64 a)
                        = wrap64 (a + exact_sum l)).
  { induction l as [| x l IH]; intros a.
    - simpl. f_equal. lia.
    - change (exact_sum (x :: l)) with (x + exact_sum l). cbn [fold_left].
      rewrite wrap64_add_l, IH. f_equal. lia. }
  apply (G 0).
Qed.

Lemma exact_sum_nonneg (l : list Z) : Forall (fun x => 0 <= x) l -> 0 <= exact_sum l.
Proof. induction 1; simpl; lia. Qed.

Lemma exact_sum_filter_le (A : Type) (f : A -> bool) (val : A -> Z) (l : list A) :
  Forall (fun x => 0 <= val x) l ->
  0 <= exact_sum (map val (filter f l)) <= exact_sum (map val l).
Proof.
  induction 1 as [| x l Hx Hl IH]; simpl; [lia |].
  destruct (f x); simpl; lia.
Qed.

Lemma sum_int64_exact (l : list Z) :
  0 <= exact_sum l < 2 ^ 63 -> sum_int64 l = exact_sum l.
Proof. intros H. rewrite sum_int64_wrap. apply wrap64_small. lia. Qed.

(** ** Rounding *)

Lemma round_half_even_error (n d : Z) :
  0 < d -> 2 * Z.abs (round_half_even n d * d - n) <= d.
Proof.
  intros Hd. unfold round_half_even.
  pose proof (Z.div_mod n d ltac:(lia)) as E.
  pose proof (Z.mod_pos_bound n d Hd) as B.
  set (q := n / d) in *. set (r := n mod d) in *.
  destruct (Z.ltb_spec (2 * r) d); [nia |].
  destruct (Z.ltb_spec d (2 * r)); [nia |].
  destruct (Z.even q); nia.
Qed.

Lemma round_half_even_range (n d lo hi : Z) :
  0 < d -> lo * d <= n <= hi * d -> lo <= round_half_even n d <= hi.
Proof.
  intros Hd H. unfold round_half_even.
  pose proof (Z.div_mod n d ltac:(lia)) as E.
  pose proof (Z.mod_pos_bound n d Hd) as B.
  set (q := n / d) in *. set (r := n mod d) in *.
  assert (Hq : lo <= q <= hi) by nia.
  assert (Hr : q = hi -> r = 0) by nia.
  destruct (Z.ltb_spec (2 * r) d); [lia |].
  destruct (Z.ltb_spec d (2 * r)); [lia |].
  destruct (Z.even q); lia.
Qed.

(** ** Sums over groups *)

Lemma exact_sum_perm (l l' : list Z) : Permutation l l' -> exact_sum l = exact_sum l'.
Proof. induction 1; simpl; lia. Qed.

Lemma exact_sum_firstn_le (n : nat) (l : list Z) :
  Forall (fun x => 0 <= x) l -> exact_sum (firstn n l) <= exact_sum l.
Proof.
  intros H. revert n. induction H as [| x l Hx Hl IH]; intros [| n]; simpl; try lia.
  - pose proof (exact_sum_nonneg l Hl). lia.
  - specialize (IH n). lia.
Qed.

Lemma exact_sum_map_add {A : Type} (f g : A -> Z) (l : list A) :
  exact_sum (map (fun x => f x + g x) l) = exact_sum (map f l) + exact_sum (map g l).
Proof. induction l; simpl; lia. Qed.

Section GroupSums.

Variable K : Type.
Variable eqb : K -> K -> bool.
Hypothesis eqb_eq : forall a b, eqb a b = true <-> a = b.
Variable key : Row -> K.
Variable val : Row -> Z.

Lemma indicator_sum_absent (x : K) (v : Z) (ks : list K) :
  ~ In x ks -> exact_sum (map (fun k => if eqb x k then v else 0) ks) = 0.
Proof.
  induction ks as [| k ks IH]; simpl; [reflexivity |].
  intros Hn. destruct (eqb x k) eqn:E.
  - apply eqb_eq in E. subst. exfalso. apply Hn. now left.
  - rewrite IH; [lia | tauto].
Qed.

Lemma indicator_sum (x : K) (v : Z) (ks : list K) :
  NoDup ks -> In x ks ->
  exact_sum (map (fun k => if eqb x k then v else 0) ks) = v.
Proof.
  induction 1 as [| k ks Hk Hnd IH]; simpl; [contradiction |].
  intros [-> | Hin].
  - assert (E : eqb x x = true) by now apply eqb_eq.
    rewrite E, indicator_sum_absent by assumption. lia.
  - destruct (eqb x k) eqn:E.
    + apply eqb_eq in E. subst. contradiction.
    + rewrite IH by assumption. lia.
Qed.

Lemma group_totals_sum (ks : list K) (t : Table) :
  NoDup ks -> (forall r, In r t -> In (key r) ks) ->
  exact_sum (map (group_total eqb key val t) ks) = exact_sum (map val t).
Proof.
  intros Hnd. induction t as [| r t IH]; intros Hin.
  - clear. induction ks as [| k ks IH]; [reflexivity |].
    cbn [map exact_sum fold_right]. fold (exact_sum (map (group_total eqb key val []) ks)).
    now rewrite IH.
  - rewrite map_ext with (g := fun k => (if eqb (key r) k then val r else 0)
                                        + group_total eqb key val t k).
    + rewrite exact_sum_map_add, indicator_sum, IH; simpl; auto.
      * intros r' Hr'. apply Hin. now right.
      * apply Hin. now left.
    + intros k. unfold group_total. simpl.
      destruct (eqb (key r) k); simpl; lia.
Qed.

Variable leb : K -> K -> bool.

(** With no negative value and a total within int64, every group sum is
    exact. *)
Lemma groupby_sum_exact (t : Table) :
  Forall (fun r => 0 <= val r) t ->
  exact_sum (map val t) < 2 ^ 63 ->
  groupby_sum eqb leb key val t =
  map (fun k => (k, group_total eqb key val t k)) (group_keys eqb leb (map key t)).
Proof.
  intros Hpos Hmax. unfold groupby_sum. apply map_ext. intros k. f_equal.
  apply sum_int64_exact.
  pose proof (exact_sum_filter_le _ (fun r => eqb (key r) k) val t Hpos). lia.
Qed.

Lemma groupby_sum_total (t : Table) :
  Forall (fun r => 0 <= val r) t ->
  exact_sum (map val t) < 2 ^ 63 ->
  exact_sum (map snd (groupby_sum eqb leb key val t)) = exact_sum (map val t).
Proof.
  intros Hpos Hmax. rewrite groupby_sum_exact, map_map by assumption. simpl.
  apply group_totals_sum.
  - now apply group_keys_NoDup.
  - intros r Hr. apply group_keys_In; [assumption |]. now apply in_map.
Qed.

Lemma groupby_sum_nonneg (t : Table) :
  Forall (fun r => 0 <= val r) t ->
  exact_sum (map val t) < 2 ^ 63 ->
  Forall (fun e => 0 <= snd e) (groupby_sum eqb leb key val t).
Proof.
  intros Hpos Hmax. rewrite groupby_sum_exact by assumption.
  apply Forall_forall. intros e He. apply in_map_iff in He.
  destruct He as [k [<- _]]. simpl.
  apply (exact_sum_filter_le _ (fun r => eqb (key r) k) val t Hpos).
Qed.

End GroupSums.

(** ** Sorting by sales *)

Lemma insert_desc_perm {A : Type} (col : A -> Z) (e : A) (l : list A) :
  Permutation (insert_desc col e l) (e :: l).
Proof.
  induction l as [| x l IH]; simpl; [reflexivity |].
  destruct (col x <=? col e); [reflexivity |].
  rewrite IH. apply perm_swap.
Qed.

Lemma sort_values_desc_perm {A : Type} (col : A -> Z) (l : list A) :
  Permutation (sort_values_desc col l) l.
Proof.
  induction l as [| x l IH]; simpl; [reflexivity |].
  rewrite insert_desc_perm. now constructor.
Qed.

Lemma firstn_incl {A : Type} (n : nat) (l : list A) (x : A) :
  In x (firstn n l) -> In x l.
Proof.
  intros H. rewrite <- (firstn_skipn n l). apply in_or_app. now left.
Qed.

(** ** Product pie *)

Lemma top_products_eq (t : Table) :
  top_products t = firstn 5 (sort_values_desc slice_sales (reset_index (product_totals t))).
Proof. reflexivity. Qed.

Lemma top_products_In (t : Table) (e : nat * (Label * Z)) :
  In e (top_products t) -> In (snd e) (product_totals t).
Proof.
  rewrite top_products_eq. intros H. apply firstn_incl in H.
  apply (Permutation_in _ (sort_values_desc_perm _ _)) in H.
  destruct e as [i x]. now apply in_combine_r in H.
Qed.

Lemma top_products_length (t : Table) : (List.length (top_products t) <= 5)%nat.
Proof. rewrite top_products_eq. apply firstn_le_length. Qed.

Lemma sorted_totals_sum (t : Table) :
  exact_sum (map slice_sales (sort_values_desc slice_sales (reset_index (product_totals t))))
  = exact_sum (map snd (product_totals t)).
Proof.
  rewrite (exact_sum_perm _ _ (Permutation_map _ (sort_values_desc_perm _ _))).
  unfold slice_sales. rewrite <- map_map, reset_index_snd. reflexivity.
Qed.

Section NonNegativeSales.

Variable t : Table.
Hypothesis sales_nonneg : forall r, In r t -> 0 <= Sales r.
Hypothesis sales_in_range : exact_sum (map Sales t) < 2 ^ 63.

Lemma sales_Forall_nonneg : Forall (fun r => 0 <= Sales r) t.
Proof. now apply Forall_forall. Qed.

Lemma total_sales_exact : sum_int64 (map Sales t) = exact_sum (map Sales t).
Proof.
  apply sum_int64_exact. split; [| assumption].
  apply exact_sum_nonneg. apply Forall_map. exact sales_Forall_nonneg.
Qed.

Lemma product_totals_nonneg : Forall (fun e => 0 <= snd e) (product_totals t).
Proof.
  apply groupby_sum_nonneg; [exact sales_Forall_nonneg | assumption].
Qed.

Lemma product_totals_sum :
  exact_sum (map snd (product_totals t)) = sum_int64 (map Sales t).
Proof.
  rewrite total_sales_exact.
  apply (groupby_sum_total _ _ Label_eqb_eq); [exact sales_Forall_nonneg | assumption].
Qed.

Lemma top_products_nonneg : Forall (fun e => 0 <= slice_sales e) (top_products t).
Proof.
  apply Forall_forall. intros e He. apply top_products_In in He.
  pose proof product_totals_nonneg as H. rewrite Forall_forall in H.
  now apply H in He.
Qed.

Lemma top_products_sum_le :
  exact_sum (map slice_sales (top_products t)) <= sum_int64 (map Sales t).
Proof.
  rewrite <- product_totals_sum, <- sorted_totals_sum, top_products_eq.
  rewrite <- firstn_map. apply exact_sum_firstn_le.
  apply Forall_map.
  eapply Permutation_Forall; [symmetry; apply sort_values_desc_perm |].
  apply Forall_forall. intros [i x] Hx. apply in_combine_r in Hx.
  pose proof product_totals_nonneg as H. rewrite Forall_forall in H.
  now apply H in Hx.
Qed.

Lemma top_products_sum_all :
  (List.length (distinct_products t) <= 5)%nat ->
  exact_sum (map slice_sales (top_products t)) = sum_int64 (map Sales t).
Proof.
  intros Hfew.
  rewrite <- product_totals_sum, <- sorted_totals_sum, top_products_eq.
  rewrite firstn_all2; [reflexivity |].
  rewrite (Permutation_length (sort_values_desc_perm _ _)), reset_index_length.
  unfold product_totals. rewrite <- (length_map fst), groupby_sum_keys.
  unfold group_keys. rewrite (Permutation_length (sort_keys_perm _ _ _)).
  exact Hfew.
Qed.

Lemma slice_sales_le (e : nat * (Label * Z)) :
  In e (top_products t) -> 0 <= slice_sales e <= sum_int64 (map Sales t).
Proof.
  intros He.
  pose proof top_products_nonneg as Hn. rewrite Forall_forall in Hn.
  split; [now apply Hn |].
  pose proof top_products_sum_le as Hle. revert Hn Hle He.
  generalize (top_products t). induction l as [| x l IH]; simpl; [contradiction |].
  intros Hn Hle [-> | He].
  - assert (0 <= exact_sum (map slice_sales l)); [| lia].
    apply exact_sum_nonneg, Forall_map, Forall_forall. intros y Hy. apply Hn. now right.
  - apply IH; auto. pose proof (Hn x (or_introl eq_refl)). lia.
Qed.

End NonNegativeSales.

Lemma pie_chart_data_positive (t : Table) :
  0 < sum_int64 (map Sales t) ->
  map ChartSlice.value (pie_chart_data t) =
  map (fun e => Float1 (slice_tenths (sum_int64 (map Sales t)) e)) (top_products t).
Proof.
  intros H. apply Z.ltb_lt in H. unfold pie_chart_data. rewrite H, map_map.
  apply map_ext. now intros [i [p s]].
Qed.

Lemma pie_chart_data_not_positive (t : Table) :
  sum_int64 (map Sales t) <= 0 ->
  map ChartSlice.value (pie_chart_data t) = map (fun _ => PyInt 0) (top_products t).
Proof.
  intros H. apply Z.ltb_ge in H. unfold pie_chart_data. rewrite H, map_map.
  apply map_ext. now intros [i [p s]].
Qed.

Lemma pie_chart_data_names (t : Table) :
  map ChartSlice.name (pie_chart_data t) = map (fun e => fst (snd e)) (top_products t).
Proof.
  unfold pie_chart_data. rewrite map_map. apply map_ext. now intros [i [p s]].
Qed.

Lemma pie_chart_data_length (t : Table) :
  List.length (pie_chart_data t) = List.length (top_products t).
Proof. unfold pie_chart_data. apply length_map. Qed.

Lemma sum_values_map (pie : list ChartSlice.t) :
  sum_values pie = fold_right Qplus 0%Q (map Number_to_Q (map ChartSlice.value pie)).
Proof. unfold sum_values. now rewrite map_map. Qed.

Lemma sum_tenths_Q (l : list Z) :
  (fold_right Qplus 0 (map Number_to_Q (map Float1 l)) == exact_sum l # 10)%Q.
Proof.
  induction l as [| x l IH]; [reflexivity |].
  cbn [map fold_right Number_to_Q]. rewrite IH.
  change (exact_sum (x :: l)) with (x + exact_sum l).
  unfold Qeq, Qplus. cbn [Qnum Qden]. lia.
Qed.

Lemma sum_zeros_Q (A : Type) (l : list A) :
  (fold_right Qplus 0 (map Number_to_Q (map (fun _ => PyInt 0) l)) == 0)%Q.
Proof.
  induction l as [| x l IH]; [reflexivity |].
  cbn [map fold_right Number_to_Q]. rewrite IH. reflexivity.
Qed.

Lemma sum_tenths_bounds (total_sales : Z) (l : list (nat * (Label * Z))) :
  0 < total_sales ->
  2000 * exact_sum (map slice_sales l) - Z.of_nat (List.length l) * total_sales
  <= 2 * total_sales * exact_sum (map (slice_tenths total_sales) l)
  <= 2000 * exact_sum (map slice_sales l) + Z.of_nat (List.length l) * total_sales.
Proof.
  intros Ht. induction l as [| e l IH]; [simpl; lia |].
  change (exact_sum (map slice_sales (e :: l)))
    with (slice_sales e + exact_sum (map slice_sales l)).
  change (exact_sum (map (slice_tenths total_sales) (e :: l)))
    with (slice_tenths total_sales e + exact_sum (map (slice_tenths total_sales) l)).
  change (List.length (e :: l)) with (S (List.length l)).
  pose proof (round_half_even_error (slice_sales e * 1000) total_sales Ht) as E.
  fold (slice_tenths total_sales e) in E.
  rewrite Nat2Z.inj_succ. nia.
Qed.



(** ** The scenarios, evaluated *)

Lemma scenario_loads (months : string) :
  completes (load_table no_conversion (upload scenario_frame (Some months)))
            (months, scenario_table).
Proof. reflexivity. Qed.

Lemma scenario_january_rows : completes (filter_months "Jan" scenario_table) january_rows.
Proof. reflexivity. Qed.

Lemma scenario_january_response conv :
  response conv (upload scenario_frame (Some "Jan")) = Ok200 january_body.
Proof. vm_compute. reflexivity. Qed.

Lemma january_sales_nonneg (r : Row) : In r january_rows -> 0 <= Sales r.
Proof. intros [<- | [<- | []]]; simpl; lia. Qed.

(** On the inputs the scenarios use, the percentages taken in exact
    arithmetic are the floats the binary64 evaluation yields. *)
Lemma binary64_agrees_on_scenarios :
  forallb (fun p => Binary64.agrees (fst p) (snd p))
          [(10, 30); (20, 30); (1, 17); (2, 17); (14, 17)] = true.
Proof. vm_compute. reflexivity. Qed.

(** C1 (as the code has it). For the scenario table and
    [specificMonths="Jan"], the response has the single bar
    {month "Jan", sales 30, color "#3B82F6"}; its pie lists product B first
    (66.7, color "#10B981") and product A second (33.3, color "#3B82F6"),
    in descending order of summed sales; and its first topPerformers string
    mentions "Jan". *)
Theorem scenario_january conv :
  exists body,
    response conv (upload scenario_frame (Some "Jan")) = Ok200 body /\
    barChartData body =
      [ {| ChartPoint.month := "Jan"; ChartPoint.sales := 30;
           ChartPoint.color := "#3B82F6" |} ] /\
    pieChartData body =
      [ {| ChartSlice.name := LText "B"; ChartSlice.value := Float1 667;
           ChartSlice.color := "#10B981" |};
        {| ChartSlice.name := LText "A"; ChartSlice.value := Float1 333;
           ChartSlice.color := "#3B82F6" |} ] /\
    (Number_to_Q (Float1 667) == 66.7)%Q /\
    (Number_to_Q (Float1 333) == 33.3)%Q /\
    nth 0 (topPerformers (insights body)) EmptyString = "Jan showed the highest sales volume" /\
    PyStr.contains "Jan" (nth 0 (topPerformers (insights body)) EmptyString) = true.
Proof.
  exists january_body. split; [apply scenario_january_response |].
  repeat split.
Qed.

(** C1, the claim as stated, fails: no response to the scenario request has
    the pie slices in the order A (33.3), B (66.7). *)
Lemma scenario_january_pie_order :
  ~ exists body,
      response no_conversion (upload scenario_frame (Some "Jan")) = Ok200 body /\
      barChartData body =
        [ {| ChartPoint.month := "Jan"; ChartPoint.sales := 30;
             ChartPoint.color := "#3B82F6" |} ] /\
      map (fun s => (ChartSlice.name s, ChartSlice.value s)) (pieChartData body) =
        [ (LText "A", Float1 333); (LText "B", Float1 667) ] /\
      PyStr.contains "Jan" (nth 0 (topPerformers (insights body)) EmptyString) = true.
Proof.
  intros [body [Hr [_ [Hpie _]]]].
  rewrite scenario_january_response in Hr. inversion Hr; subst body.
  discriminate Hpie.
Qed.


(** ** The theorems at concrete inputs *)


Lemma bar_months_are_filtered_months_witness :
  completes (load_table no_conversion (upload scenario_frame (Some "Jan")))
            ("Jan", scenario_table) /\
  completes (filter_months "Jan" scenario_table) january_rows /\
  response no_conversion (upload scenario_frame (Some "Jan")) = Ok200 january_body /\
  NoDup (month_labels (barChartData january_body)) /\
  forall m, In m (month_labels (barChartData january_body)) <->
            exists r, In r january_rows /\ strftime_b (Date r) = m.
Proof.
  split; [apply scenario_loads |].
  split; [apply scenario_january_rows |].
  split; [apply scenario_january_response |].
  exact (bar_months_are_filtered_months no_conversion _ _ _ _ _
           (scenario_loads "Jan") scenario_january_rows
           (scenario_january_response no_conversion)).
Defined.

Lemma no_rows_for_months_rejected_witness :
  completes (load_table no_conversion (upload scenario_frame (Some "Dec")))
            ("Dec", scenario_table) /\
  "Dec" <> EmptyString /\
  filter (matches_months "Dec") scenario_table = [] /\
  "Dec" = form_get (specificMonths (upload scenario_frame (Some "Dec"))) "Jan" /\
  response no_conversion (upload scenario_frame (Some "Dec")) =
    Error 400 "No data found for specified months: Dec" /\
  returns (filter_months "Dec" scenario_table)
    (Error 400 "No data found for specified months: Dec") /\
  PyStr.contains "Dec" "No data found for specified months: Dec" = true.
Proof.
  assert (Hsm : "Dec" <> EmptyString) by discriminate.
  assert (Hnone : filter (matches_months "Dec") scenario_table = []) by reflexivity.
  split; [apply scenario_loads |].
  split; [exact Hsm |].
  split; [exact Hnone |].
  exact (no_rows_for_months_rejected no_conversion _ _ _
           (scenario_loads "Dec") Hsm Hnone).
Defined.

Lemma missing_columns_rejected_witness :
  accepted_upload (upload two_column_frame None) two_column_frame /\
  (exists col, In col required_columns /\ ~ In col (columns two_column_frame)) /\
  response no_conversion (upload two_column_frame None) =
    Error 400 "Missing required columns: Sales, Revenue".
Proof.
  assert (Hup : accepted_upload (upload two_column_frame None) two_column_frame).
  { eexists. split; [reflexivity |]. split; [discriminate |]. split; reflexivity. }
  assert (Hmiss : exists col, In col required_columns /\
                              ~ In col (columns two_column_frame)).
  { exists "Sales". split; [simpl; tauto |].
    simpl. intros [H | [H | []]]; discriminate. }
  split; [exact Hup |]. split; [exact Hmiss |].
  exact (proj1 (missing_columns_rejected no_conversion _ _ Hup Hmiss)).
Defined.

Lemma scenario_months (m : Month) :
  In m [Jan; Feb] <-> exists r, In r scenario_table /\ month_of (Date r) = m.
Proof.
  split.
  - intros [<- | [<- | []]].
    + exists {| Date := on Jan 5; Sales := 10; Revenue := 100; Product := LText "A" |}.
      split; [simpl; tauto | reflexivity].
    + exists {| Date := on Feb 1; Sales := 5; Revenue := 50; Product := LText "A" |}.
      split; [simpl; tauto | reflexivity].
  - intros [r [[<- | [<- | [<- | []]]] <-]]; simpl; tauto.
Qed.




Lemma bar_months_ascending_witness :
  completes (load_table no_conversion (upload scenario_frame (Some EmptyString)))
            (EmptyString, scenario_table) /\
  completes (filter_months EmptyString scenario_table) scenario_table /\
  (exists body,
     response no_conversion (upload scenario_frame (Some EmptyString)) = Ok200 body /\
     month_labels (barChartData body) = ["Feb"; "Jan"] /\
     StronglySorted (fun a b => String.ltb a b = true) (month_labels (barChartData body))).
Proof.
  split; [apply scenario_loads |].
  split; [reflexivity |].
  destruct (response no_conversion (upload scenario_frame (Some EmptyString))) as [body |]
    eqn:Hr; [| vm_compute in Hr; discriminate Hr].
  exists body. split; [reflexivity |]. split.
  - vm_compute in Hr. inversion Hr. reflexivity.
  - exact (bar_months_ascending no_conversion _ _ _ _ _
             (scenario_loads EmptyString) (eq_refl : completes (filter_months EmptyString scenario_table)
                                                      scenario_table) Hr).
Defined.

(* ================================================================= *)
(** * Further properties of the handler *)

(** At an exact decimal tie the bit-level evaluation can land on the other
    neighbour: 23 of 80 is 28.75 per cent, which [percent_of] takes to 28.8
    and binary64 arithmetic to 28.7. *)
Lemma binary64_differs_at_a_tie :
  percent_of 23 80 = Float1 288 /\
  SFeqb (Binary64.percent 23 80) (Binary64.of_tenths 287) = true /\
  Binary64.agrees 23 80 = false.
Proof. repeat split; vm_compute; reflexivity. Qed.

(** ** Every path of the loading stage *)

Lemma load_table_outcome conv request :
  snd (load_table conv request) =
  match file request with
  | None => inl (Error 400 "No file part in request")
  | Some f =>
      if String.eqb (filename f) EmptyString then inl (Error 400 "No file selected")
      else if negb (PyStr.endswith_any (filename f) [".xlsx"; ".xls"]) then
        inl (Error 400
               "Invalid file format. Please upload an Excel file (.xlsx or .xls)")
      else
        match read_excel f with
        | ReadError e => inl (Error 500 ("Failed to process file: " ++ e))
        | Parsed df => check_frame conv (form_get (specificMonths request) "Jan") df
        end
  end.
Proof.
  destruct (file request) as [f |] eqn:Hf.
  - destruct (String.eqb (filename f) EmptyString) eqn:Hn.
    + unfold load_table. stage_step. rewrite Hf. stage_step. rewrite Hn. stage_step.
      reflexivity.
    + destruct (negb (PyStr.endswith_any (filename f) [".xlsx"; ".xls"])) eqn:He.
      * unfold load_table. stage_step. rewrite Hf. stage_step. rewrite Hn, He.
        stage_step. reflexivity.
      * destruct (read_excel f) as [df | e] eqn:Hr.
        -- apply load_table_accepted. exists f. apply String.eqb_neq in Hn.
           apply negb_false_iff in He. auto.
        -- unfold load_table. stage_step. rewrite Hf. stage_step. rewrite Hn, He.
           stage_step. rewrite Hr. stage_step. reflexivity.
  - unfold load_table. stage_step. rewrite Hf. stage_step. reflexivity.
Qed.

Lemma check_frame_status conv sm df r :
  check_frame conv sm df = inl r ->
  failure_status r = Some 400 \/ failure_status r = Some 500.
Proof.
  unfold check_frame.
  destruct (negb (is_empty (missing_columns df))); [intros H; inversion H; auto |].
  destruct (get_column df "Sales"); [| intros H; inversion H; auto].
  destruct (get_column df "Revenue"); [| intros H; inversion H; auto].
  destruct (negb (is_numeric_dtype c) || negb (is_numeric_dtype c0));
    [intros H; inversion H; auto |].
  destruct (get_column df "Date"); [| intros H; inversion H; auto].
  destruct (to_datetime conv c1); try (intros H; inversion H; auto; fail).
  destruct (get_column df "Product"); intros H; inversion H; auto.
Qed.

Lemma get_column_In (df : DataFrame) (col : string) (c : Column) :
  get_column df col = Some c -> In col (columns df).
Proof.
  induction df as [| [name c'] df IH]; simpl; [discriminate |].
  destruct (String.eqb_spec name col) as [-> | Hne]; [now left |].
  intros H. right. now apply IH.
Qed.

Lemma missing_columns_nil (df : DataFrame) :
  missing_columns df = [] <-> forall col, In col required_columns -> In col (columns df).
Proof.
  split.
  - intros E col Hcol.
    destruct (in_dec string_dec col (columns df)) as [H | H]; [exact H |].
    assert (Hm : In col (missing_columns df)) by (apply missing_columns_In; auto).
    rewrite E in Hm. contradiction.
  - intros H. destruct (missing_columns df) as [| col l] eqn:E; [reflexivity |].
    assert (Hm : In col (missing_columns df)) by (rewrite E; now left).
    apply missing_columns_In in Hm. destruct Hm as [H1 H2]. now apply H in H1.
Qed.

Lemma check_frame_loads conv sm frame sm' t :
  check_frame conv sm frame = inr (sm', t) <-> sm' = sm /\ loads_as conv frame t.
Proof.
  unfold check_frame, loads_as. split.
  - destruct (negb (is_empty (missing_columns frame))); [discriminate |].
    destruct (get_column frame "Sales") as [sales |]; [| discriminate].
    destruct (get_column frame "Revenue") as [revenue |]; [| discriminate].
    destruct sales as [sales | |]; try discriminate.
    destruct revenue as [revenue | |]; try discriminate. cbn [is_numeric_dtype negb orb].
    destruct (get_column frame "Date") as [date |]; [| discriminate].
    destruct (to_datetime conv date) as [dates | |] eqn:Hd; try discriminate.
    destruct (get_column frame "Product") as [product |]; [| discriminate].
    intros H. inversion H. split; [reflexivity |].
    exists date, dates, sales, revenue, product. auto 10.
  - intros [-> [date [dates [sales [revenue [product [Hd [Hc [Hs [Hr [Hp ->]]]]]]]]]]].
    assert (Hm : missing_columns frame = []).
    { apply missing_columns_nil. intros col Hcol. simpl in Hcol.
      destruct Hcol as [<- | [<- | [<- | [<- | []]]]];
        eapply get_column_In; eassumption. }
    rewrite Hm, Hs, Hr, Hd, Hc, Hp. reflexivity.
Qed.

Lemma filter_months_selected (sm : string) (df : Table) :
  snd (filter_months sm df) =
  match selected_rows sm df with
  | [] => if String.eqb sm EmptyString then inr []
          else inl (Error 400 ("No data found for specified months: " ++ sm))
  | rows => inr rows
  end.
Proof.
  unfold selected_rows. destruct (String.eqb_spec sm EmptyString) as [-> | Hne].
  - rewrite filter_months_empty_string. destruct df; reflexivity.
  - rewrite filter_months_outcome by assumption.
    destruct (filter (matches_months sm) df); reflexivity.
Qed.

(** The response in terms of the loaded table. *)
Lemma response_of_table conv request sm df :
  completes (load_table conv request) (sm, df) ->
  response conv request =
  match selected_rows sm df with
  | [] => if String.eqb sm EmptyString
          then Error 400 "No data available after applying product filter"
          else Error 400 ("No data found for specified months: " ++ sm)
  | rows => match snd (aggregate rows) with inl r => r | inr body => Ok200 body end
  end.
Proof.
  unfold completes. intros Hl. rewrite response_stages, Hl. cbn [fst snd].
  rewrite filter_months_selected.
  destruct (selected_rows sm df) as [| r rows]; [| reflexivity].
  destruct (String.eqb sm EmptyString); reflexivity.
Qed.

Lemma check_frame_500 conv sm frame msg :
  check_frame conv sm frame = inl (Error 500 msg) <->
  exists sales revenue date e,
    (forall col, In col required_columns -> In col (columns frame)) /\
    get_column frame "Sales" = Some (Int64Col sales) /\
    get_column frame "Revenue" = Some (Int64Col revenue) /\
    get_column frame "Date" = Some date /\
    to_datetime conv date = OtherError e /\
    msg = "Failed to process file: " ++ e.
Proof.
  unfold check_frame. split.
  - destruct (missing_columns frame) as [| c l] eqn:Hm; [| discriminate].
    cbn [is_empty negb].
    pose proof (proj1 (missing_columns_nil frame) Hm) as Hall.
    destruct (get_column_Some frame "Sales") as [sales ->]; [apply Hall; simpl; tauto |].
    destruct (get_column_Some frame "Revenue") as [revenue ->];
      [apply Hall; simpl; tauto |].
    destruct (get_column_Some frame "Date") as [date ->]; [apply Hall; simpl; tauto |].
    destruct (get_column_Some frame "Product") as [product ->];
      [apply Hall; simpl; tauto |].
    destruct sales as [sales | |]; try discriminate.
    destruct revenue as [revenue | |]; try discriminate. cbn [is_numeric_dtype negb orb].
    destruct (to_datetime conv date) as [dates | e | e] eqn:Hd; try discriminate.
    intros H. inversion H. exists sales, revenue, date, e. auto 10.
  - intros [sales [revenue [date [e [Hall [Hs [Hr [Hd [Hc ->]]]]]]]]].
    apply missing_columns_nil in Hall. rewrite Hall, Hs, Hr, Hd, Hc. reflexivity.
Qed.


(** X2. The handler answers 200, 400 or 500 and nothing else. *)
Theorem response_status conv request :
  failure_status (response conv request) = None \/
  failure_status (response conv request) = Some 400 \/
  failure_status (response conv request) = Some 500.
Proof.
  destruct (snd (load_table conv request)) as [r | [sm t]] eqn:Hl.
  - rewrite (response_of_load _ _ _ Hl). right.
    rewrite load_table_outcome in Hl.
    destruct (file request) as [f |]; [| inversion Hl; auto].
    destruct (String.eqb (filename f) EmptyString); [inversion Hl; auto |].
    destruct (negb (PyStr.endswith_any _ _)); [inversion Hl; auto |].
    destruct (read_excel f); [| inversion Hl; auto].
    now apply check_frame_status in Hl.
  - rewrite (response_of_table _ _ _ _ Hl).
    destruct (selected_rows sm t) as [| r rows].
    + destruct (String.eqb _ _); auto.
    + destruct (aggregate_nonempty (r :: rows)) as [tm [tp [_ [_ E]]]];
        [discriminate |]. rewrite E. auto.
Qed.


Lemma logs_well_bind (A B : Type) (m : M A) (f : A -> M B) :
  logs_well m -> (forall a, logs_well (f a)) -> logs_well (bind m f).
Proof.
  unfold logs_well. destruct m as [l [r | a]]; cbn [fst snd bind]; [auto |].
  intros Hl Hf. specialize (Hf a). destruct (f a) as [l' [r | b]]; cbn [fst snd] in *.
  - destruct Hf as [Hr [l0 [e [-> [He Hl0]]]]]. split; [exact Hr |].
    exists (l ++ l0)%list, e. rewrite app_assoc. split; [reflexivity |].
    split; [exact He |]. apply Forall_app. auto.
  - apply Forall_app. auto.
Qed.

Lemma logs_well_info (e : LogEvent) : is_error_event e = false -> logs_well (logger e).
Proof. intros H. unfold logs_well. cbn. auto. Qed.

Lemma logs_well_ret (A : Type) (a : A) : logs_well (ret a).
Proof. unfold logs_well. cbn. constructor. Qed.

Lemma logs_well_error (A : Type) (e : LogEvent) (status : Z) (msg : string) :
  is_error_event e = true ->
  logs_well (logger e ;; @return_ A (Error status msg)).
Proof.
  intros H. unfold logs_well. cbn. split; [discriminate |].
  exists [], e. auto.
Qed.

Lemma logs_well_raise (A : Type) (e : string) : logs_well (@raise A e).
Proof.
  unfold logs_well. cbn. split; [discriminate |].
  exists [], (ErrorProcessingFile e). auto.
Qed.

Ltac logs_well_step :=
  first
    [ apply logs_well_error; reflexivity
    | apply logs_well_raise
    | apply logs_well_ret
    | apply logs_well_info; reflexivity
    | apply logs_well_bind; [| intros ?] ].

Lemma load_table_logs_well conv request : logs_well (load_table conv request).
Proof.
  unfold load_table, getitem, bad_request.
  logs_well_step; [logs_well_step |].
  destruct (file request) as [f |]; [| logs_well_step].
  destruct (String.eqb (filename f) EmptyString); [logs_well_step |].
  destruct (negb (PyStr.endswith_any _ _)); [logs_well_step |].
  do 2 (logs_well_step; [logs_well_step |]).
  destruct (read_excel f) as [df | e]; [| logs_well_step].
  logs_well_step; [logs_well_step |].
  destruct (negb (is_empty _)); [logs_well_step |].
  logs_well_step; [destruct (get_column df "Sales"); logs_well_step |].
  logs_well_step; [destruct (get_column df "Revenue"); logs_well_step |].
  destruct (negb (is_numeric_dtype _) || negb (is_numeric_dtype _)); [logs_well_step |].
  logs_well_step; [destruct (get_column df "Date"); logs_well_step |].
  destruct (to_datetime conv _); [| logs_well_step | logs_well_step].
  logs_well_step; [destruct (get_column df "Product"); logs_well_step |].
  logs_well_step.
Qed.

Lemma filter_months_logs_well sm df : logs_well (filter_months sm df).
Proof.
  unfold filter_months, bad_request.
  destruct (negb (String.eqb sm EmptyString)); [| logs_well_step].
  destruct (is_empty _); logs_well_step.
Qed.

Lemma aggregate_logs_well recent_data : logs_well (aggregate recent_data).
Proof.
  destruct recent_data as [| r t].
  - unfold logs_well. rewrite aggregate_empty. cbn. split; [discriminate |].
    exists [], NoDataAfterFiltering. auto.
  - destruct (aggregate_nonempty (r :: t)) as [tm [tp [_ [_ E]]]]; [discriminate |].
    unfold logs_well. rewrite E. cbn. auto.
Qed.

Lemma load_table_log_head conv request :
  exists l, fst (load_table conv request) = ReceivedRequest :: l.
Proof.
  unfold load_table. rewrite fst_bind. cbn [snd fst logger].
  eexists. reflexivity.
Qed.

(** X4. Logging: the log opens with the request event; a failed request
    ends its log with the one error event it writes, and a successful one
    writes no error event and ends with the completion event. *)
Theorem errors_are_logged conv request :
  (exists l, fst (analyze_file conv request) = ReceivedRequest :: l) /\
  match snd (analyze_file conv request) with
  | Error _ _ =>
      exists l e, fst (analyze_file conv request) = (l ++ [e])%list /\
                  is_error_event e = true /\
                  Forall (fun e' => is_error_event e' = false) l
  | Ok200 _ =>
      Forall (fun e' => is_error_event e' = false) (fst (analyze_file conv request)) /\
      exists l, fst (analyze_file conv request) = (l ++ [AnalysisCompleted])%list
  end.
Proof.
  destruct (load_table_log_head conv request) as [l0 Hhead].
  pose proof (load_table_logs_well conv request) as Hload.
  fold (response conv request). rewrite response_stages, log_stages.
  unfold logs_well in Hload.
  destruct (snd (load_table conv request)) as [r | loaded] eqn:Hl.
  { split; [eauto |]. destruct Hload as [Hr Hlog].
    destruct r; [now contradiction Hr | exact Hlog]. }
  split; [rewrite Hhead; eexists; reflexivity |].
  pose proof (filter_months_logs_well (fst loaded) (snd loaded)) as Hfilter.
  unfold logs_well in Hfilter.
  destruct (snd (filter_months (fst loaded) (snd loaded))) as [r | recent] eqn:Hf.
  { destruct Hfilter as [Hr [l [e [E [He Hinfo]]]]].
    destruct r; [now contradiction Hr |].
    exists (fst (load_table conv request) ++ l)%list, e.
    rewrite E, app_assoc. split; [reflexivity |]. split; [exact He |].
    apply Forall_app. auto. }
  pose proof (aggregate_logs_well recent) as Hagg. unfold logs_well in Hagg.
  destruct recent as [| row rows].
  - rewrite aggregate_empty in *. cbn [fst snd] in *.
    exists (fst (load_table conv request) ++ fst (filter_months (fst loaded) (snd loaded)))%list,
           NoDataAfterFiltering.
    rewrite app_assoc. split; [reflexivity |]. split; [reflexivity |].
    apply Forall_app. auto.
  - destruct (aggregate_nonempty (row :: rows)) as [tm [tp [_ [_ E]]]]; [discriminate |].
    rewrite E in *. cbn [fst snd] in *. split.
    + apply Forall_app. split; [exact Hload |]. apply Forall_app. auto.
    + eexists. rewrite app_assoc. reflexivity.
Qed.

(** ** The largest group *)

Lemma idxmax_fold_spec (K : Type) (rest : list (K * Z)) (best : K * Z) :
  let r := fold_left (fun best e => if snd best <? snd e then e else best) rest best in
  In r (best :: rest) /\ forall e, In e (best :: rest) -> snd e <= snd r.
Proof.
  revert best. induction rest as [| x rest IH]; intros best; cbn [fold_left].
  - split; [now left |]. intros e [<- | []]. lia.
  - specialize (IH (if snd best <? snd x then x else best)).
    cbn zeta in *. destruct IH as [Hin Hmax]. split.
    + destruct Hin as [E | Hin]; [| right; now right].
      rewrite <- E. destruct (snd best <? snd x); [right; now left | now left].
    + intros e He.
      assert (Hb : snd best <= snd (if snd best <? snd x then x else best) /\
                   snd x <= snd (if snd best <? snd x then x else best)).
      { destruct (Z.ltb_spec (snd best) (snd x)); lia. }
      pose proof (Hmax _ (or_introl eq_refl)) as H0.
      destruct He as [<- | [<- | He]]; [lia | lia |].
      apply Hmax. now right.
Qed.

Lemma idxmax_spec (K : Type) (s : list (K * Z)) (k : K) :
  idxmax s = Some k ->
  exists v, In (k, v) s /\ forall e, In e s -> snd e <= v.
Proof.
  destruct s as [| first rest]; [discriminate |]. unfold idxmax.
  intros H. inversion H as [Hk]. clear H.
  destruct (idxmax_fold_spec K rest first) as [Hin Hmax].
  set (r := fold_left _ rest first) in *.
  exists (snd r). split; [| exact Hmax].
  destruct r as [k' v]. exact Hin.
Qed.

(** ** Bars and their groups *)

Lemma bar_chart_data_pairs (t : Table) :
  map (fun b => (ChartPoint.month b, ChartPoint.sales b)) (bar_chart_data t)
  = month_totals t.
Proof.
  unfold bar_chart_data, month_totals. rewrite map_map.
  rewrite <- (reset_index_snd (groupby_sum _ _ _ _ _)) at 2.
  apply map_ext. now intros [i [m s]].
Qed.

Lemma month_abbr_not_NA (m : Month) : String.eqb (month_abbr m) "N/A" = false.
Proof. destruct m; reflexivity. Qed.

Lemma month_totals_key (t : Table) (k : string) (v : Z) :
  In (k, v) (month_totals t) -> exists m, k = month_abbr m.
Proof.
  intros H. apply (groupby_sum_In _ _ _ String_eqb_eq) in H. destruct H as [H _].
  apply in_map_iff in H. destruct H as [r [<- _]]. eexists. reflexivity.
Qed.

(** What a successful response is made of. *)
Lemma response_Ok200_parts conv request sm df recent_data body :
  completes (load_table conv request) (sm, df) ->
  completes (filter_months sm df) recent_data ->
  response conv request = Ok200 body ->
  exists top_month top_product,
    idxmax (month_totals recent_data) = Some top_month /\
    idxmax (product_totals recent_data) = Some top_product /\
    body = {| barChartData := bar_chart_data recent_data;
              pieChartData := pie_chart_data recent_data;
              summaryStats := summary_stats recent_data;
              insights := make_insights top_month top_product
                                        (pie_chart_data recent_data) |}.
Proof.
  intros Hl Hf Hr.
  pose proof (response_Ok200_inv _ _ _ _ _ _ Hl Hf Hr) as Ha.
  destruct (aggregate_inv _ _ Ha) as [Hne _].
  destruct (aggregate_nonempty recent_data Hne) as [tm [tp [H1 [H2 E]]]].
  exists tm, tp. split; [exact H1 |]. split; [exact H2 |].
  unfold completes in Ha. rewrite E in Ha. cbn [snd] in Ha.
  inversion Ha. reflexivity.
Qed.

(** X5. The month the insights name has the largest summed sales of all
    bars. *)
Theorem top_month_is_best conv request sm df recent_data body :
  completes (load_table conv request) (sm, df) ->
  completes (filter_months sm df) recent_data ->
  response conv request = Ok200 body ->
  exists top,
    In top (barChartData body) /\
    (forall bar, In bar (barChartData body) ->
                 ChartPoint.sales bar <= ChartPoint.sales top) /\
    nth 0 (topPerformers (insights body)) EmptyString
      = ChartPoint.month top ++ " showed the highest sales volume" /\
    nth 2 (recommendations (insights body)) EmptyString
      = "Consider expanding successful " ++ ChartPoint.month top ++ " strategies".
Proof.
  intros Hl Hf Hr.
  destruct (response_Ok200_parts _ _ _ _ _ _ Hl Hf Hr) as [tm [tp [Hm [_ ->]]]].
  cbn [barChartData insights topPerformers recommendations make_insights nth].
  destruct (idxmax_spec _ _ _ Hm) as [v [Hin Hmax]].
  destruct (month_totals_key _ _ _ Hin) as [m ->].
  rewrite month_abbr_not_NA. cbn [negb].
  rewrite <- bar_chart_data_pairs in Hin. apply in_map_iff in Hin.
  destruct Hin as [top [Etop Hin]]. inversion Etop as [[E1 E2]].
  exists top. rewrite E1. split; [exact Hin |]. split; [| split; reflexivity].
  intros bar Hbar. rewrite E2.
  apply (Hmax (ChartPoint.month bar, ChartPoint.sales bar)).
  rewrite <- bar_chart_data_pairs.
  apply (in_map (fun b => (ChartPoint.month b, ChartPoint.sales b))), Hbar.
Qed.

(** ** Descending order *)

Lemma insert_desc_sorted (A : Type) (col : A -> Z) (e : A) (l : list A) :
  StronglySorted (fun a b => col b <= col a) l ->
  StronglySorted (fun a b => col b <= col a) (insert_desc col e l).
Proof.
  induction 1 as [| x l Hs IH Hx]; cbn [insert_desc]; [repeat constructor |].
  destruct (Z.leb_spec (col x) (col e)).
  - constructor; [now constructor |].
    constructor; [assumption |].
    eapply Forall_impl; [| exact Hx]. cbn. intros y Hy. lia.
  - constructor; [exact IH |].
    eapply Permutation_Forall; [symmetry; apply insert_desc_perm |].
    constructor; [lia | exact Hx].
Qed.

Lemma sort_values_desc_sorted (A : Type) (col : A -> Z) (l : list A) :
  StronglySorted (fun a b => col b <= col a) (sort_values_desc col l).
Proof.
  induction l; cbn [sort_values_desc fold_right];
    [constructor | now apply insert_desc_sorted].
Qed.

Lemma StronglySorted_firstn (A : Type) (R : A -> A -> Prop) (n : nat) (l : list A) :
  StronglySorted R l -> StronglySorted R (firstn n l).
Proof.
  intros H. revert n. induction H as [| x l Hs IH Hx]; intros [| n]; cbn [firstn];
    try constructor.
  - apply IH.
  - apply Forall_forall. intros y Hy. apply firstn_incl in Hy.
    rewrite Forall_forall in Hx. now apply Hx.
Qed.

Lemma StronglySorted_map (A B : Type) (R : A -> A -> Prop) (R' : B -> B -> Prop)
      (f : A -> B) (l : list A) :
  (forall a b, R a b -> R' (f a) (f b)) ->
  StronglySorted R l -> StronglySorted R' (map f l).
Proof.
  intros Hf. induction 1 as [| x l Hs IH Hx]; cbn [map]; constructor; [exact IH |].
  apply Forall_map. eapply Forall_impl; [| exact Hx]. intros y. apply Hf.
Qed.

Lemma NoDup_firstn (A : Type) (n : nat) (l : list A) : NoDup l -> NoDup (firstn n l).
Proof.
  intros H. rewrite <- (firstn_skipn n l) in H. now apply NoDup_app_remove_r in H.
Qed.

Lemma round_half_even_mono (n n' d : Z) :
  0 < d -> n <= n' -> round_half_even n d <= round_half_even n' d.
Proof.
  intros Hd Hn. unfold round_half_even.
  pose proof (Z.div_mod n d ltac:(lia)) as E.
  pose proof (Z.mod_pos_bound n d Hd) as B.
  pose proof (Z.div_mod n' d ltac:(lia)) as E'.
  pose proof (Z.mod_pos_bound n' d Hd) as B'.
  assert (Hq : n / d <= n' / d) by (apply Z.div_le_mono; lia).
  set (q := n / d) in *. set (r := n mod d) in *.
  set (q' := n' / d) in *. set (r' := n' mod d) in *.
  destruct (Z.eq_dec q q') as [Eq | Nq].
  - rewrite <- Eq in *. assert (r <= r') by lia.
    destruct (Z.ltb_spec (2 * r) d), (Z.ltb_spec (2 * r') d); try lia;
      destruct (Z.ltb_spec d (2 * r)), (Z.ltb_spec d (2 * r')); try lia;
      destruct (Z.even q); lia.
  - assert (q + 1 <= q') by lia.
    destruct (2 * r <? d), (d <? 2 * r), (Z.even q),
             (2 * r' <? d), (d <? 2 * r'), (Z.even q'); lia.
Qed.

Lemma slice_value_mono (total_sales s s' : Z) :
  s <= s' ->
  (Number_to_Q (slice_value total_sales s) <= Number_to_Q (slice_value total_sales s'))%Q.
Proof.
  intros H. unfold slice_value. destruct (Z.ltb_spec 0 total_sales).
  - unfold percent_of, Number_to_Q, Qle. cbn [Qnum Qden].
    pose proof (round_half_even_mono (s * 1000) (s' * 1000) total_sales ltac:(lia)
                                     ltac:(lia)). lia.
  - apply Qle_refl.
Qed.

Lemma pie_chart_data_map (t : Table) :
  pie_chart_data t =
  map (fun e => {| ChartSlice.name := fst (snd e);
                   ChartSlice.value := slice_value (sum_int64 (map Sales t)) (slice_sales e);
                   ChartSlice.color := cycle colors (fst e) |})
      (top_products t).
Proof. unfold pie_chart_data. apply map_ext. now intros [i [p s]]. Qed.

Lemma top_products_sorted (t : Table) :
  StronglySorted (fun a b => slice_sales b <= slice_sales a) (top_products t).
Proof.
  rewrite top_products_eq. apply StronglySorted_firstn, sort_values_desc_sorted.
Qed.

Lemma top_products_names_NoDup (t : Table) :
  NoDup (map (fun e => fst (snd e)) (top_products t)).
Proof.
  rewrite top_products_eq, <- firstn_map. apply NoDup_firstn.
  eapply Permutation_NoDup.
  - symmetry. apply Permutation_map, sort_values_desc_perm.
  - rewrite <- map_map, reset_index_snd. unfold product_totals.
    rewrite groupby_sum_keys. apply group_keys_NoDup, Label_eqb_eq.
Qed.

(** X6. The pie ranks products: at most five slices, no product twice, every
    slice a product of the selected rows, and values that never increase down
    the list. *)
Theorem pie_is_ranked conv request sm df recent_data body :
  completes (load_table conv request) (sm, df) ->
  completes (filter_months sm df) recent_data ->
  response conv request = Ok200 body ->
  (List.length (pieChartData body) <= 5)%nat /\
  NoDup (map ChartSlice.name (pieChartData body)) /\
  (forall s, In s (pieChartData body) ->
             exists r, In r recent_data /\ Product r = ChartSlice.name s) /\
  StronglySorted (fun a b => (Number_to_Q (ChartSlice.value b)
                              <= Number_to_Q (ChartSlice.value a))%Q)
                 (pieChartData body).
Proof.
  intros Hl Hf Hr.
  apply (response_Ok200_inv _ _ _ _ _ _ Hl Hf), aggregate_inv in Hr.
  destruct Hr as [_ [_ [-> _]]].
  split; [rewrite pie_chart_data_length; apply top_products_length |].
  split; [rewrite pie_chart_data_names; apply top_products_names_NoDup |].
  rewrite pie_chart_data_map. split.
  - intros s Hs. apply in_map_iff in Hs. destruct Hs as [e [<- He]].
    cbn [ChartSlice.name]. apply top_products_In in He.
    destruct (snd e) as [p x] eqn:Ee. cbn [fst].
    apply (groupby_sum_In _ _ _ Label_eqb_eq) in He. destruct He as [He _].
    apply in_map_iff in He. destruct He as [r [E Hin]]. now exists r.
  - eapply StronglySorted_map; [| apply top_products_sorted].
    intros a b Hab. cbn [ChartSlice.value]. now apply slice_value_mono.
Qed.

Lemma top_products_head (t : Table) :
  product_totals t <> [] ->
  exists first rest,
    top_products t = first :: rest /\
    In (snd first) (product_totals t) /\
    forall e, In e (product_totals t) -> snd e <= slice_sales first.
Proof.
  intros Hne. rewrite top_products_eq.
  pose proof (sort_values_desc_sorted _ slice_sales (reset_index (product_totals t))) as Hs.
  pose proof (sort_values_desc_perm slice_sales (reset_index (product_totals t))) as Hp.
  destruct (sort_values_desc slice_sales (reset_index (product_totals t)))
    as [| first sorted] eqn:E.
  - apply Permutation_length in Hp. rewrite reset_index_length in Hp.
    destruct (product_totals t); [congruence | discriminate].
  - exists first, (firstn 4 sorted). split; [reflexivity |].
    assert (Hall : forall x, In x (reset_index (product_totals t)) ->
                             slice_sales x <= slice_sales first).
    { intros x Hx. apply (Permutation_in _ (Permutation_sym Hp)) in Hx.
      inversion Hs as [| ? ? _ Hfirst]; subst. rewrite Forall_forall in Hfirst.
      destruct Hx as [<- | Hx]; [lia | now apply Hfirst]. }
    split.
    + assert (Hin : In first (reset_index (product_totals t)))
        by (apply (Permutation_in _ Hp); now left).
      destruct first as [i x]. now apply in_combine_r in Hin.
    + intros e He. rewrite <- (reset_index_snd (product_totals t)) in He.
      apply in_map_iff in He. destruct He as [x [<- Hx]]. now apply Hall.
Qed.


(** ** Colours *)

Lemma reset_index_nth (A : Type) (l : list A) (i : nat) (x : A) :
  In (i, x) (reset_index l) -> nth_error l i = Some x.
Proof.
  unfold reset_index.
  assert (G : forall s, In (i, x) (combine (seq s (List.length l)) l) ->
                        (s <= i)%nat /\ nth_error l (i - s) = Some x).
  { induction l as [| y l IH]; intros s; cbn [List.length seq combine];
      [contradiction |].
    intros [E | H].
    - inversion E; subst. rewrite Nat.sub_diag. auto.
    - apply IH in H. destruct H as [Hle Hn]. split; [lia |].
      replace (i - s)%nat with (S (i - S s)) by lia. exact Hn. }
  intros H. apply G in H. destruct H as [_ H]. now rewrite Nat.sub_0_r in H.
Qed.

(** X8. A slice's colour is picked by the rank of its product among all the
    distinct products in ascending order, modulo five, and not by the slice's
    place in the pie. *)
Theorem pie_colour_by_rank conv request sm df recent_data body :
  completes (load_table conv request) (sm, df) ->
  completes (filter_months sm df) recent_data ->
  response conv request = Ok200 body ->
  forall s, In s (pieChartData body) ->
    exists rank, nth_error (sorted_products recent_data) rank = Some (ChartSlice.name s) /\
                 ChartSlice.color s = nth (rank mod 5) colors EmptyString.
Proof.
  intros Hl Hf Hr s Hs.
  apply (response_Ok200_inv _ _ _ _ _ _ Hl Hf), aggregate_inv in Hr.
  destruct Hr as [_ [_ [Hpie _]]]. rewrite Hpie, pie_chart_data_map in Hs.
  apply in_map_iff in Hs. destruct Hs as [[i [p x]] [<- He]].
  cbn [ChartSlice.name ChartSlice.color fst snd]. exists i. split; [| reflexivity].
  rewrite top_products_eq in He. apply firstn_incl in He.
  apply (Permutation_in _ (sort_values_desc_perm _ _)), reset_index_nth in He.
  unfold sorted_products. rewrite <- groupby_sum_keys with (val := Sales).
  fold (product_totals recent_data). rewrite nth_error_map, He. reflexivity.
Qed.

(** ** Bars against the total *)

Lemma wrap64_add_r (a x : Z) : wrap64 (a + wrap64 x) = wrap64 (a + x).
Proof. rewrite Z.add_comm, wrap64_add_l. f_equal. lia. Qed.

Lemma wrap64_exact_sum_wrap (l : list Z) :
  wrap64 (exact_sum (map wrap64 l)) = wrap64 (exact_sum l).
Proof.
  induction l as [| x l IH]; [reflexivity |].
  change (exact_sum (map wrap64 (x :: l))) with (wrap64 x + exact_sum (map wrap64 l)).
  change (exact_sum (x :: l)) with (x + exact_sum l).
  rewrite wrap64_add_l, <- wrap64_add_r, IH, wrap64_add_r. reflexivity.
Qed.

Lemma wrap64_range (z : Z) : - 2 ^ 63 <= wrap64 z < 2 ^ 63.
Proof.
  unfold wrap64. pose proof (Z.mod_pos_bound (z + 2 ^ 63) (2 ^ 64) ltac:(lia)). lia.
Qed.

Lemma groupby_sum_wrapped_total (K : Type) (eqb leb : K -> K -> bool)
      (key : Row -> K) (val : Row -> Z) (t : Table) :
  (forall a b, eqb a b = true <-> a = b) ->
  wrap64 (exact_sum (map snd (groupby_sum eqb leb key val t))) = sum_int64 (map val t).
Proof.
  intros Heq. unfold groupby_sum. rewrite map_map. cbn [snd].
  rewrite (map_ext _ (fun k => wrap64 (group_total eqb key val t k)))
    by (intros k; apply sum_int64_wrap).
  rewrite <- (map_map (group_total eqb key val t) wrap64), wrap64_exact_sum_wrap.
  rewrite sum_int64_wrap. f_equal.
  apply group_totals_sum; [exact Heq | now apply group_keys_NoDup |].
  intros r Hr. apply group_keys_In; [exact Heq |]. now apply in_map.
Qed.


(** ** The bar palette *)

Lemma month_labels_le_12 (t : Table) :
  (List.length (group_keys String.eqb String.leb (table_months t)) <= 12)%nat.
Proof.
  change 12%nat with (List.length (map month_abbr all_months)).
  apply NoDup_incl_length; [apply group_keys_NoDup, String_eqb_eq |].
  intros k Hk.
  apply (proj1 (group_keys_In _ _ String.leb String_eqb_eq k (table_months t))) in Hk.
  unfold table_months in Hk. apply in_map_iff in Hk. destruct Hk as [r [<- _]].
  unfold strftime_b. apply in_map. destruct (month_of (Date r)); simpl; tauto.
Qed.

Lemma bar_chart_data_colors (t : Table) :
  map ChartPoint.color (bar_chart_data t)
  = map (cycle bar_colors) (seq 0 (List.length (bar_chart_data t))).
Proof.
  unfold bar_chart_data, reset_index. rewrite length_map, map_map.
  generalize (groupby_sum String.eqb String.leb (fun r => strftime_b (Date r)) Sales t).
  intros l. rewrite length_combine, length_seq, Nat.min_id.
  generalize 0%nat. induction l as [| [m s] l IH]; intros n; [reflexivity |].
  cbn [List.length seq combine map ChartPoint.color]. now rewrite IH.
Qed.

Lemma palette_prefix (n : nat) :
  (n <= 12)%nat -> map (cycle bar_colors) (seq 0 n) = firstn n bar_colors.
Proof.
  intros H. do 13 (destruct n as [| n]; [reflexivity |]). lia.
Qed.

(** X10. There are at most twelve bars, each for one of the twelve month
    abbreviations, the i-th bar has the i-th colour of the bar palette, and no
    two bars share a colour. *)
Theorem bar_colours_distinct conv request sm df recent_data body :
  completes (load_table conv request) (sm, df) ->
  completes (filter_months sm df) recent_data ->
  response conv request = Ok200 body ->
  (List.length (barChartData body) <= 12)%nat /\
  (forall bar, In bar (barChartData body) ->
               exists m, ChartPoint.month bar = month_abbr m) /\
  map ChartPoint.color (barChartData body)
    = firstn (List.length (barChartData body)) bar_colors /\
  NoDup (map ChartPoint.color (barChartData body)).
Proof.
  intros Hl Hf Hr.
  apply (response_Ok200_inv _ _ _ _ _ _ Hl Hf), aggregate_inv in Hr.
  destruct Hr as [_ [-> _]].
  assert (Hlen : (List.length (bar_chart_data recent_data) <= 12)%nat).
  { rewrite <- (length_map ChartPoint.month). fold (month_labels (bar_chart_data recent_data)).
    rewrite bar_months. apply month_labels_le_12. }
  split; [exact Hlen |]. split.
  - intros bar Hbar.
    apply (in_map (fun b => (ChartPoint.month b, ChartPoint.sales b))) in Hbar.
    rewrite bar_chart_data_pairs in Hbar. eapply month_totals_key, Hbar.
  - rewrite bar_chart_data_colors, palette_prefix by exact Hlen.
    split; [reflexivity |]. apply NoDup_firstn.
    unfold bar_colors. repeat constructor; simpl; intuition discriminate.
Qed.

(** ** Row order *)

Section SortedUnique.

Variable K : Type.
Variable eqb : K -> K -> bool.
Variable leb : K -> K -> bool.
Hypothesis eqb_eq : forall a b, eqb a b = true <-> a = b.
Hypothesis leb_total : forall a b, leb a b = true \/ leb b a = true.
Hypothesis leb_trans : forall a b c, leb a b = true -> leb b c = true -> leb a c = true.
Hypothesis leb_antisym : forall a b, leb a b = true -> leb b a = true -> a = b.

Lemma sorted_NoDup_unique (l1 l2 : list K) :
  StronglySorted (fun a b => leb a b = true) l1 ->
  StronglySorted (fun a b => leb a b = true) l2 ->
  NoDup l1 -> NoDup l2 -> (forall x, In x l1 <-> In x l2) -> l1 = l2.
Proof.
  intros H1. revert l2. induction H1 as [| x l1 Hs1 IH Hx]; intros l2 H2 N1 N2 Hin.
  - destruct l2 as [| y l2]; [reflexivity |].
    exfalso. apply (proj2 (Hin y)). now left.
  - destruct l2 as [| y l2]; [exfalso; apply (proj1 (Hin x)); now left |].
    inversion H2 as [| ? ? Hs2 Hy]; subst.
    inversion N1 as [| ? ? Nx N1']; subst. inversion N2 as [| ? ? Ny N2']; subst.
    rewrite Forall_forall in Hx, Hy.
    assert (E : x = y).
    { destruct (proj1 (Hin x) (or_introl eq_refl)) as [E | Hxin]; [now symmetry |].
      destruct (proj2 (Hin y) (or_introl eq_refl)) as [E | Hyin]; [exact E |].
      apply leb_antisym; [now apply Hx | now apply Hy]. }
    subst y. f_equal. apply IH; try assumption.
    intros z. split; intros Hz.
    + destruct (proj1 (Hin z) (or_intror Hz)) as [E | H]; [subst; contradiction | exact H].
    + destruct (proj2 (Hin z) (or_intror Hz)) as [E | H]; [subst; contradiction | exact H].
Qed.

Lemma group_keys_perm (l l' : list K) :
  Permutation l l' -> group_keys eqb leb l = group_keys eqb leb l'.
Proof.
  intros Hp. apply sorted_NoDup_unique.
  - now apply sort_keys_sorted.
  - now apply sort_keys_sorted.
  - now apply group_keys_NoDup.
  - now apply group_keys_NoDup.
  - intros x. rewrite !group_keys_In by assumption.
    split; apply Permutation_in; [exact Hp | now symmetry].
Qed.

Lemma filter_perm (A : Type) (f : A -> bool) (l l' : list A) :
  Permutation l l' -> Permutation (filter f l) (filter f l').
Proof.
  induction 1 as [| x l l' Hp IH | x y l | l l' l'' H1 IH1 H2 IH2]; cbn [filter].
  - constructor.
  - destruct (f x); [now constructor | exact IH].
  - destruct (f x), (f y); try reflexivity. apply perm_swap.
  - now transitivity (filter f l').
Qed.

Lemma sum_int64_perm (l l' : list Z) : Permutation l l' -> sum_int64 l = sum_int64 l'.
Proof. intros H. rewrite !sum_int64_wrap. f_equal. now apply exact_sum_perm. Qed.

Lemma groupby_sum_perm (key : Row -> K) (val : Row -> Z) (t t' : Table) :
  Permutation t t' -> groupby_sum eqb leb key val t = groupby_sum eqb leb key val t'.
Proof.
  intros Hp. unfold groupby_sum.
  rewrite (group_keys_perm (map key t) (map key t')) by now apply Permutation_map.
  apply map_ext. intros k. f_equal.
  apply sum_int64_perm, Permutation_map, filter_perm, Hp.
Qed.

End SortedUnique.

Lemma Timestamp_leb_spec (a b : Timestamp) :
  Timestamp_leb a b = true <->
  year a < year b \/
  year a = year b /\
  (month_number (month_of a) < month_number (month_of b) \/
   month_number (month_of a) = month_number (month_of b) /\ day a <= day b).
Proof.
  unfold Timestamp_leb.
  rewrite !orb_true_iff, !andb_true_iff, !orb_true_iff, !andb_true_iff,
          !Z.ltb_lt, !Z.eqb_eq, Z.leb_le.
  reflexivity.
Qed.

Lemma Label_leb_total (a b : Label) : Label_leb a b = true \/ Label_leb b a = true.
Proof.
  destruct a, b; cbn [Label_leb]; auto.
  - rewrite !Z.leb_le. lia.
  - rewrite !Timestamp_leb_spec. lia.
  - apply String.leb_total.
Qed.

Lemma Label_leb_trans (a b c : Label) :
  Label_leb a b = true -> Label_leb b c = true -> Label_leb a c = true.
Proof.
  destruct a, b, c; cbn [Label_leb]; try easy.
  - rewrite !Z.leb_le. lia.
  - rewrite !Timestamp_leb_spec. lia.
  - apply String_leb_trans.
Qed.

Lemma Label_leb_antisym (a b : Label) :
  Label_leb a b = true -> Label_leb b a = true -> a = b.
Proof.
  destruct a, b; cbn [Label_leb]; try easy.
  - rewrite !Z.leb_le. intros. f_equal. lia.
  - rewrite !Timestamp_leb_spec. intros H1 H2. f_equal.
    apply Timestamp_eqb_eq. unfold Timestamp_eqb.
    rewrite !andb_true_iff, !Z.eqb_eq. lia.
  - intros H1 H2. f_equal. now apply String.leb_antisym.
Qed.

Lemma month_totals_perm (t t' : Table) :
  Permutation t t' -> month_totals t = month_totals t'.
Proof.
  apply groupby_sum_perm;
    [apply String_eqb_eq | apply String.leb_total | apply String_leb_trans
     | apply String.leb_antisym].
Qed.

Lemma product_totals_perm (t t' : Table) :
  Permutation t t' -> product_totals t = product_totals t'.
Proof.
  apply groupby_sum_perm;
    [apply Label_eqb_eq | apply Label_leb_total | apply Label_leb_trans
     | apply Label_leb_antisym].
Qed.

Lemma aggregate_perm (t t' : Table) : Permutation t t' -> aggregate t = aggregate t'.
Proof.
  intros Hp.
  assert (Hm : month_totals t = month_totals t') by now apply month_totals_perm.
  assert (Hq : product_totals t = product_totals t') by now apply product_totals_perm.
  assert (Hs : sum_int64 (map Sales t) = sum_int64 (map Sales t'))
    by now apply sum_int64_perm, Permutation_map.
  assert (Hr : sum_int64 (map Revenue t) = sum_int64 (map Revenue t'))
    by now apply sum_int64_perm, Permutation_map.
  assert (Hn : List.length t = List.length t') by now apply Permutation_length.
  assert (He : is_empty t = is_empty t').
  { destruct t, t'; try reflexivity; discriminate. }
  unfold month_totals, product_totals in *.
  unfold aggregate, bar_chart_data, pie_chart_data, top_products, summary_stats.
  rewrite Hm, Hq, Hs, Hr, Hn, He. reflexivity.
Qed.

Lemma selected_rows_perm (sm : string) (df df' : Table) :
  Permutation df df' -> Permutation (selected_rows sm df) (selected_rows sm df').
Proof.
  intros Hp. unfold selected_rows.
  destruct (String.eqb sm EmptyString); [exact Hp | now apply filter_perm].
Qed.


(** ** Every 400 answer *)

Lemma check_frame_400 conv sm frame msg :
  check_frame conv sm frame = inl (Error 400 msg) <-> frame_rejection conv frame msg.
Proof.
  unfold check_frame. split.
  - destruct (missing_columns frame) as [| c l] eqn:Hm.
    + cbn [is_empty negb].
      pose proof (proj1 (missing_columns_nil frame) Hm) as Hall.
      destruct (get_column_Some frame "Sales") as [sales Hs]; [apply Hall; simpl; tauto |].
      destruct (get_column_Some frame "Revenue") as [revenue Hr];
        [apply Hall; simpl; tauto |].
      destruct (get_column_Some frame "Date") as [date Hd]; [apply Hall; simpl; tauto |].
      destruct (get_column_Some frame "Product") as [product Hp];
        [apply Hall; simpl; tauto |].
      rewrite Hs, Hr, Hd, Hp.
      destruct (is_numeric_dtype sales) eqn:Ns; cbn [negb orb].
      * destruct (is_numeric_dtype revenue) eqn:Nr; cbn [negb].
        -- destruct sales as [sales | |]; try discriminate.
           destruct revenue as [revenue | |]; try discriminate.
           destruct (to_datetime conv date) as [dates | e | e] eqn:Hc; try discriminate.
           intros H. inversion H. eapply RejectDate; eassumption.
        -- intros H. inversion H. eapply RejectNonNumeric; eauto.
      * intros H. inversion H. eapply RejectNonNumeric; eauto.
    + cbn [is_empty negb]. pose proof (RejectMissing conv frame) as G.
      rewrite Hm in G. intros H. injection H as <-. apply G. discriminate.
  - intros [Hm | sales revenue Hm Hs Hr Hn | sales revenue date e Hm Hs Hr Hd Hc].
    + destruct (missing_columns frame); [congruence | reflexivity].
    + rewrite Hm, Hs, Hr. cbn [is_empty negb].
      destruct Hn as [-> | ->]; [reflexivity | now rewrite orb_true_r].
    + rewrite Hm, Hs, Hr, Hd, Hc. reflexivity.
Qed.


(** ** The month parameter as a set *)

(** X13. For a non-empty month parameter only the set of month abbreviations it
    lists counts: two parameters that list the same months (whatever the
    order, the repetitions, the blanks around entries or the entries that
    name no month) select the same rows, and give the same response when
    that selection is not empty. *)
Theorem months_parameter_is_a_set conv request sm1 sm2 df :
  completes (load_table conv (with_specificMonths request (Some sm1))) (sm1, df) ->
  sm1 <> EmptyString -> sm2 <> EmptyString ->
  (forall m, lists_month sm1 m = lists_month sm2 m) ->
  selected_rows sm1 df = selected_rows sm2 df /\
  (selected_rows sm1 df <> [] ->
   response conv (with_specificMonths request (Some sm1)) =
   response conv (with_specificMonths request (Some sm2))).
Proof.
  intros Hl H1 H2 Hsame.
  assert (E : selected_rows sm1 df = selected_rows sm2 df).
  { unfold selected_rows. apply String.eqb_neq in H1, H2. rewrite H1, H2.
    apply filter_ext. intros r. exact (Hsame (month_of (Date r))). }
  split; [exact E |]. intros Hne.
  pose proof (load_table_with_months conv request _ (Some sm2) _ _ Hl) as Hl2.
  cbn [form_get] in Hl2.
  rewrite (response_of_table _ _ _ _ Hl), (response_of_table _ _ _ _ Hl2), <- E.
  destruct (selected_rows sm1 df); [congruence | reflexivity].
Qed.

(** ** The further properties at concrete inputs *)

Lemma top_month_is_best_witness :
  completes (load_table no_conversion (upload scenario_frame (Some "Jan")))
            ("Jan", scenario_table) /\
  completes (filter_months "Jan" scenario_table) january_rows /\
  response no_conversion (upload scenario_frame (Some "Jan")) = Ok200 january_body /\
  (exists top,
    In top (barChartData january_body) /\
    (forall bar, In bar (barChartData january_body) ->
                 ChartPoint.sales bar <= ChartPoint.sales top) /\
    nth 0 (topPerformers (insights january_body)) EmptyString
      = ChartPoint.month top ++ " showed the highest sales volume" /\
    nth 2 (recommendations (insights january_body)) EmptyString
      = "Consider expanding successful " ++ ChartPoint.month top ++ " strategies").
Proof.
  split; [apply scenario_loads |].
  split; [apply scenario_january_rows |].
  split; [apply scenario_january_response |].
  exact (top_month_is_best no_conversion _ _ _ _ _
           (scenario_loads "Jan") scenario_january_rows
           (scenario_january_response no_conversion)).
Defined.


Lemma pie_is_ranked_witness :
  completes (load_table no_conversion (upload scenario_frame (Some "Jan")))
            ("Jan", scenario_table) /\
  completes (filter_months "Jan" scenario_table) january_rows /\
  response no_conversion (upload scenario_frame (Some "Jan")) = Ok200 january_body /\
  ((List.length (pieChartData january_body) <= 5)%nat /\
  NoDup (map ChartSlice.name (pieChartData january_body)) /\
  (forall s, In s (pieChartData january_body) ->
             exists r, In r january_rows /\ Product r = ChartSlice.name s) /\
  StronglySorted (fun a b => (Number_to_Q (ChartSlice.value b)
                              <= Number_to_Q (ChartSlice.value a))%Q)
                 (pieChartData january_body)).
Proof.
  split; [apply scenario_loads |].
  split; [apply scenario_january_rows |].
  split; [apply scenario_january_response |].
  exact (pie_is_ranked no_conversion _ _ _ _ _
           (scenario_loads "Jan") scenario_january_rows
           (scenario_january_response no_conversion)).
Defined.

Lemma pie_colour_by_rank_witness :
  completes (load_table no_conversion (upload scenario_frame (Some "Jan")))
            ("Jan", scenario_table) /\
  completes (filter_months "Jan" scenario_table) january_rows /\
  response no_conversion (upload scenario_frame (Some "Jan")) = Ok200 january_body /\
  (forall s, In s (pieChartData january_body) ->
    exists rank, nth_error (sorted_products january_rows) rank = Some (ChartSlice.name s) /\
                 ChartSlice.color s = nth (rank mod 5) colors EmptyString).
Proof.
  split; [apply scenario_loads |].
  split; [apply scenario_january_rows |].
  split; [apply scenario_january_response |].
  exact (pie_colour_by_rank no_conversion _ _ _ _ _
           (scenario_loads "Jan") scenario_january_rows
           (scenario_january_response no_conversion)).
Defined.


Lemma bar_colours_distinct_witness :
  completes (load_table no_conversion (upload scenario_frame (Some "Jan")))
            ("Jan", scenario_table) /\
  completes (filter_months "Jan" scenario_table) january_rows /\
  response no_conversion (upload scenario_frame (Some "Jan")) = Ok200 january_body /\
  ((List.length (barChartData january_body) <= 12)%nat /\
  (forall bar, In bar (barChartData january_body) ->
               exists m, ChartPoint.month bar = month_abbr m) /\
  map ChartPoint.color (barChartData january_body)
    = firstn (List.length (barChartData january_body)) bar_colors /\
  NoDup (map ChartPoint.color (barChartData january_body))).
Proof.
  split; [apply scenario_loads |].
  split; [apply scenario_january_rows |].
  split; [apply scenario_january_response |].
  exact (bar_colours_distinct no_conversion _ _ _ _ _
           (scenario_loads "Jan") scenario_january_rows
           (scenario_january_response no_conversion)).
Defined.

Lemma reordered_loads (months : string) :
  completes (load_table no_conversion (upload reordered_frame (Some months)))
            (months, reordered_table).
Proof. reflexivity. Qed.


Lemma same_months_listed (m : Month) :
  lists_month " Feb , Jan,Foo,Jan" m = lists_month "Jan,Feb" m.
Proof. destruct m; reflexivity. Qed.

Lemma months_parameter_is_a_set_witness :
  completes (load_table no_conversion
               (with_specificMonths (upload scenario_frame None)
                                    (Some " Feb , Jan,Foo,Jan")))
            (" Feb , Jan,Foo,Jan", scenario_table) /\
  " Feb , Jan,Foo,Jan" <> EmptyString /\ "Jan,Feb" <> EmptyString /\
  (forall m, lists_month " Feb , Jan,Foo,Jan" m = lists_month "Jan,Feb" m) /\
  selected_rows " Feb , Jan,Foo,Jan" scenario_table
    = selected_rows "Jan,Feb" scenario_table /\
  (selected_rows " Feb , Jan,Foo,Jan" scenario_table <> [] ->
   response no_conversion
     (with_specificMonths (upload scenario_frame None) (Some " Feb , Jan,Foo,Jan")) =
   response no_conversion
     (with_specificMonths (upload scenario_frame None) (Some "Jan,Feb"))).
Proof.
  assert (Hl : completes (load_table no_conversion
                            (with_specificMonths (upload scenario_frame None)
                                                 (Some " Feb , Jan,Foo,Jan")))
                         (" Feb , Jan,Foo,Jan", scenario_table)) by reflexivity.
  assert (H1 : " Feb , Jan,Foo,Jan" <> EmptyString) by discriminate.
  assert (H2 : "Jan,Feb" <> EmptyString) by discriminate.
  split; [exact Hl |]. split; [exact H1 |]. split; [exact H2 |].
  split; [exact same_months_listed |].
  exact (months_parameter_is_a_set no_conversion _ _ _ _ Hl H1 H2 same_months_listed).
Defined.
